(** * crisPy2: the CRISP cube accessor and its slicing mixins

    A shallow embedding of [crisPy2/crisp.py] and [crisPy2/mixin.py].

    Conventions of the embedding.
    - A Python call either returns a value or raises: [result A].  A function
      that can fall off its end returns [option]: [Ok None] is Python's
      implicit [None].
    - Floating-point values are idealised as exact rationals ([Q]); numeric
      equality is [Qeq].  Division by zero is outside this idealisation, so
      statements about quotients ask for a non-zero divisor.
    - A [Quantity] is a value together with its unit; units are the monomials
      over pixel, arcsecond and megametre, so that the unit of every
      intermediate result is computed from the arithmetic of the source.
    - Arrays used as coordinates are 0-d or 1-d, with numpy's broadcasting
      between them.  A data cube is a shape and a function from positions to
      values; it is indexed by integers and slices.  The components of a
      coordinate are quantities, which a cube refuses as indices.
    - A header is a finite map from keys to values, read with the key as
      written.  A header string that is given a unit is read as the number
      it spells. *)

From Stdlib Require Import Ascii String ZArith QArith Qround Qabs Lqa.
From stdpp Require Import base option list strings gmap.

(** ** Exceptions and results *)

Inductive exn : Type :=
| WiseGuyError      (* class WiseGuyError(Exception) *)
| AttributeError
| KeyError
| IndexError
| TypeError
| ValueError
| NameError
| OSError
| UnitsError
| RecursionError.

Global Instance exn_eq_dec : EqDecision exn.
Proof. solve_decision. Defined.

Inductive result (A : Type) : Type :=
| Ok (a : A)
| Raise (e : exn).
Arguments Ok {A} a.
Arguments Raise {A} e.

Global Instance result_ret : MRet result := fun A a => Ok a.
Global Instance result_bind : MBind result := fun A B k m =>
  match m with
  | Ok a => k a
  | Raise e => Raise e
  end.

(** [try: body except caught: handler] *)
Definition try_except {A} (body : result A) (caught : exn) (handler : result A)
  : result A :=
  match body with
  | Ok a => Ok a
  | Raise e => if decide (e = caught) then handler else Raise e
  end.

(** An attribute of [self] that may not have been set. *)
Definition getattr {A} (field : option A) : result A :=
  match field with
  | Some a => Ok a
  | None => Raise AttributeError
  end.

(** ** Strings *)

(** Truth value of a string used as a condition. *)
Definition truthy (s : string) : bool := negb (String.eqb s "").

(** [needle in hay] *)
Fixpoint str_in (needle hay : string) : bool :=
  String.prefix needle hay ||
  match hay with
  | EmptyString => false
  | String _ rest => str_in needle rest
  end.

Definition lower_ascii (c : ascii) : ascii :=
  let n := nat_of_ascii c in
  if Nat.leb 65 n && Nat.leb n 90 then ascii_of_nat (n + 32) else c.

(** [s.lower()] on the ASCII range. *)
Fixpoint lower (s : string) : string :=
  match s with
  | EmptyString => EmptyString
  | String c rest => String (lower_ascii c) (lower rest)
  end.

(** ** Numbers *)

(** [np.round]: to the nearest integer, ties to the even one. *)
Definition round_half_even (q : Q) : Z :=
  let f := Qfloor q in
  match (q - inject_Z f ?= 1 # 2)%Q with
  | Lt => f
  | Gt => (f + 1)%Z
  | Eq => if Z.even f then f else (f + 1)%Z
  end.

(** [x // 2] *)
Definition floordiv2 (q : Q) : Q := inject_Z (Qfloor (q / 2)).

(** [round(x, 3)] *)
Definition round3 (q : Q) : Q := (inject_Z (round_half_even (q * 1000)) / 1000)%Q.

Definition is_whole (q : Q) : Prop := (inject_Z (Qfloor q) == q)%Q.

(** ** Numbers written as strings *)

(** [Quantity(s, unit)], which [s << unit] builds for a string [s].  astropy
    matches the start of the string against blanks, an optional sign, a
    number (digits with an optional point, or a point and digits, or nan or
    inf), an optional exponent (e or E, an optional sign, digits) and one
    optional character among [.+-], and gives the match to [float]; a
    string that does not start with a number, or whose number is followed
    by one of [.+-], is refused with TypeError.  What follows the number
    names a unit of the string's own.  The reading below is that of a
    number alone, followed by blanks at most; exponents are exact powers of
    ten.  The non-finite values and a string that carries a unit are not
    read. *)
Definition is_space (c : ascii) : bool :=
  let n := nat_of_ascii c in
  (Nat.leb 9 n && Nat.leb n 13) || (Nat.leb 28 n && Nat.leb n 32).

Definition digit_of (c : ascii) : option Z :=
  let n := nat_of_ascii c in
  if Nat.leb 48 n && Nat.leb n 57 then Some (Z.of_nat (n - 48)) else None.

Fixpoint skip_space (l : list ascii) : list ascii :=
  match l with
  | c :: rest => if is_space c then skip_space rest else l
  | [] => []
  end.

(** The digits at the start of [l], read after the digits [acc]: their
    value, how many there are, and what follows them. *)
Fixpoint digits (l : list ascii) (acc : Z) (n : nat) : Z * nat * list ascii :=
  match l with
  | c :: rest =>
      match digit_of c with
      | Some d => digits rest (10 * acc + d)%Z (S n)
      | None => (acc, n, l)
      end
  | [] => (acc, n, l)
  end.

(** An optional sign: whether it is a minus, and what follows. *)
Definition read_sign (l : list ascii) : bool * list ascii :=
  match l with
  | "-"%char :: rest => (true, rest)
  | "+"%char :: rest => (false, rest)
  | _ => (false, l)
  end.

(** Digits with an optional point, or a point and digits: the digits as one
    integer, the number of them after the point, and what follows. *)
Definition read_mantissa (l : list ascii) : option (Z * nat * list ascii) :=
  let '(i, ni, rest) := digits l 0 0 in
  match ni, rest with
  | S _, "."%char :: rest' => Some (digits rest' i 0)
  | S _, _ => Some (i, 0%nat, rest)
  | O, "."%char :: rest' =>
      let '(f, nf, rest'') := digits rest' 0 0 in
      match nf with
      | O => None
      | S _ => Some (f, nf, rest'')
      end
  | O, _ => None
  end.

(** The exponent, zero when there is none, and what follows. *)
Definition read_exponent (l : list ascii) : Z * list ascii :=
  match l with
  | c :: rest =>
      if Ascii.eqb c "e" || Ascii.eqb c "E" then
        let '(neg, rest') := read_sign rest in
        let '(e, ne, rest'') := digits rest' 0 0 in
        match ne with
        | O => (0%Z, l)
        | S _ => ((if neg then - e else e)%Z, rest'')
        end
      else (0%Z, l)
  | [] => (0%Z, l)
  end.

Definition str_number (s : string) : option Q :=
  let '(neg, l) := read_sign (skip_space (list_ascii_of_string s)) in
  match read_mantissa l with
  | None => None
  | Some (m, nf, l') =>
      let '(e, l'') := read_exponent l' in
      match l'' with
      | c :: _ =>
          if Ascii.eqb c "." || Ascii.eqb c "+" || Ascii.eqb c "-" then None
          else if forallb is_space l'' then
            Some (inject_Z (if neg then - m else m) * Qpower 10 (e - Z.of_nat nf))%Q
          else None
      | [] => Some (inject_Z (if neg then - m else m) * Qpower 10 (e - Z.of_nat nf))%Q
      end
  end.

(** ** Arrays used as coordinates *)

Inductive arr : Type :=
| Scalar (x : Q)
| Vec (xs : list Q).

Fixpoint zip_with_Q (f : Q -> Q -> Q) (xs ys : list Q) : list Q :=
  match xs, ys with
  | x :: xs', y :: ys' => f x y :: zip_with_Q f xs' ys'
  | _, _ => []
  end.

(** Element-wise binary operation with numpy broadcasting. *)
Definition broadcast (f : Q -> Q -> Q) (a b : arr) : result arr :=
  match a, b with
  | Scalar x, Scalar y => Ok (Scalar (f x y))
  | Scalar x, Vec ys => Ok (Vec (map (f x) ys))
  | Vec xs, Scalar y => Ok (Vec (map (fun x => f x y) xs))
  | Vec xs, Vec ys =>
      if Nat.eqb (length xs) (length ys) then Ok (Vec (zip_with_Q f xs ys))
      else match xs, ys with
           | [x], _ => Ok (Vec (map (f x) ys))
           | _, [y] => Ok (Vec (map (fun x => f x y) xs))
           | _, _ => Raise ValueError
           end
  end.

Definition arr_map (f : Q -> Q) (a : arr) : arr :=
  match a with
  | Scalar x => Scalar (f x)
  | Vec xs => Vec (map f xs)
  end.

(** ** Units and quantities (astropy.units) *)

Module u.
(** Exponents of pixel, arcsecond and megametre. *)
Definition t : Type := Z * Z * Z.
Definition pixel : t := (1, 0, 0)%Z.
Definition arcsec : t := (0, 1, 0)%Z.
Definition megameter : t := (0, 0, 1)%Z.
Definition mul (a b : t) : t :=
  match a, b with
  | (p, s, m), (p', s', m') => (p + p', s + s', m + m')%Z
  end.
Definition div (a b : t) : t :=
  match a, b with
  | (p, s, m), (p', s', m') => (p - p', s - s', m - m')%Z
  end.
(** [unit == "pix"] and the like: the string names a unit, compared
    with the quantity's. *)
Definition eqb (a b : t) : bool := bool_decide (a = b).
End u.

Record Quantity : Type := { value : arr; unit : u.t }.

Definition q_mul (a b : Quantity) : result Quantity :=
  v ← broadcast Qmult (value a) (value b);
  Ok {| value := v; unit := u.mul (unit a) (unit b) |}.

Definition q_div (a b : Quantity) : result Quantity :=
  v ← broadcast Qdiv (value a) (value b);
  Ok {| value := v; unit := u.div (unit a) (unit b) |}.

Definition q_add (a b : Quantity) : result Quantity :=
  if u.eqb (unit a) (unit b)
  then v ← broadcast Qplus (value a) (value b);
       Ok {| value := v; unit := unit a |}
  else Raise UnitsError.

Definition q_sub (a b : Quantity) : result Quantity :=
  if u.eqb (unit a) (unit b)
  then v ← broadcast Qminus (value a) (value b);
       Ok {| value := v; unit := unit a |}
  else Raise UnitsError.

Definition np_round (a : Quantity) : Quantity :=
  {| value := arr_map (fun x => inject_Z (round_half_even x)) (value a);
     unit := unit a |}.

(** ** N-dimensional data arrays (numpy, h5py datasets) *)

Record ndarray : Type := { shape : list nat; item : list nat -> Q }.

(** One entry of an index expression: an integer, or a slice [lo:hi]
    ([Slice None None] is [:]). *)
Inductive index : Type :=
| Idx (i : Z)
| Slice (lo hi : option Z).

Definition All : index := Slice None None.

Definition clamp (i : Z) (n : nat) : Z :=
  let i' := if (i <? 0)%Z then (i + Z.of_nat n)%Z else i in
  Z.max 0 (Z.min i' (Z.of_nat n)).

Definition slice_start (lo : option Z) (n : nat) : nat :=
  match lo with
  | None => 0%nat
  | Some l => Z.to_nat (clamp l n)
  end.

Definition slice_stop (hi : option Z) (n : nat) : nat :=
  match hi with
  | None => n
  | Some h => Z.to_nat (clamp h n)
  end.

Definition in_range (i : Z) (n : nat) : bool :=
  (- Z.of_nat n <=? i)%Z && (i <? Z.of_nat n)%Z.

Definition norm_index (i : Z) (n : nat) : nat :=
  Z.to_nat (if (i <? 0)%Z then (i + Z.of_nat n)%Z else i).

Fixpoint getitem_shape (sh : list nat) (ix : list index) {struct ix}
  : result (list nat) :=
  match ix, sh with
  | [], _ => Ok sh
  | _ :: _, [] => Raise IndexError
  | Slice lo hi :: ix', n :: sh' =>
      r ← getitem_shape sh' ix';
      Ok ((slice_stop hi n - slice_start lo n)%nat :: r)
  | Idx i :: ix', n :: sh' =>
      if in_range i n then getitem_shape sh' ix' else Raise IndexError
  end.

Fixpoint getitem_pos (sh : list nat) (ix : list index) (js : list nat) {struct ix}
  : list nat :=
  match ix, sh with
  | [], _ => js
  | _ :: _, [] => js
  | Slice lo hi :: ix', n :: sh' =>
      match js with
      | j :: js' => (slice_start lo n + j)%nat :: getitem_pos sh' ix' js'
      | [] => []
      end
  | Idx i :: ix', n :: sh' => norm_index i n :: getitem_pos sh' ix' js
  end.

(** [a[ix]] with integers and slices. *)
Definition getitem (a : ndarray) (ix : list index) : result ndarray :=
  sh ← getitem_shape (shape a) ix;
  Ok {| shape := sh; item := fun js => item a (getitem_pos (shape a) ix js) |}.

(** [len(a.shape)] *)
Definition ndim (a : ndarray) : nat := length (shape a).

(** ** Header values *)

(** A value of a YAML header: a number, a string or a list of numbers. *)
Inductive pyval : Type :=
| PNum (q : Q)
| PStr (s : string)
| PList (l : list Q).

(** A value of a FITS header card: a number or a string. *)
Inductive card : Type :=
| CNum (q : Q)
| CStr (s : string).

Definition card_val (c : card) : pyval :=
  match c with
  | CNum q => PNum q
  | CStr s => PStr s
  end.

(** [d[key]] on a mapping. *)
Definition subscript {V} (d : gmap string V) (key : string) : result V :=
  match d !! key with
  | Some v => Ok v
  | None => Raise KeyError
  end.

(** [l[i]] on a sequence, negative [i] counting from the end. *)
Definition seq_index {A} (l : list A) (i : Z) : result A :=
  if in_range i (length l)
  then match l !! norm_index i (length l) with
       | Some x => Ok x
       | None => Raise IndexError
       end
  else Raise IndexError.

Definition seq_slice {A} (l : list A) (lo hi : option Z) : list A :=
  let a := slice_start lo (length l) in
  let b := slice_stop hi (length l) in
  take (b - a) (drop a l).

(** [v[i]] *)
Definition val_index (v : pyval) (i : Z) : result pyval :=
  match v with
  | PNum _ => Raise TypeError
  | PStr s => c ← seq_index (list_ascii_of_string s) i; Ok (PStr (String c EmptyString))
  | PList l => x ← seq_index l i; Ok (PNum x)
  end.

(** [v[lo:hi]] *)
Definition val_slice (v : pyval) (lo hi : option Z) : result pyval :=
  match v with
  | PNum _ => Raise TypeError
  | PStr s => Ok (PStr (string_of_list_ascii (seq_slice (list_ascii_of_string s) lo hi)))
  | PList l => Ok (PList (seq_slice l lo hi))
  end.

(** [v // 2] *)
Definition val_floordiv2 (v : pyval) : result Q :=
  match v with
  | PNum q => Ok (floordiv2 q)
  | _ => Raise TypeError
  end.

(** [round(v, 3)] *)
Definition val_round3 (v : pyval) : result pyval :=
  match v with
  | PNum q => Ok (PNum (round3 q))
  | _ => Raise TypeError
  end.

(** [v << unit], value part: numbers and lists of numbers take a unit, and
    so does a string that spells a number. *)
Definition val_arr (v : pyval) : result arr :=
  match v with
  | PNum q => Ok (Scalar q)
  | PList l => Ok (Vec l)
  | PStr s =>
      match str_number s with
      | Some q => Ok (Scalar q)
      | None => Raise TypeError
      end
  end.

(** [(a, b) << unit], value part. *)
Definition val_pair (a b : pyval) : result (Q * Q) :=
  match a, b with
  | PNum x, PNum y => Ok (x, y)
  | _, _ => Raise TypeError
  end.

Definition arr_ndarray (a : arr) : ndarray :=
  match a with
  | Scalar x => {| shape := []; item := fun _ => x |}
  | Vec xs => {| shape := [length xs]; item := fun js => nth (hd 0%nat js) xs 0%Q |}
  end.

(** ** Files (astropy.io.fits, h5py, yaml) *)

(** One FITS extension: a header and an optional array. *)
Record HDU : Type := { hdu_header : gmap string card; hdu_data : option ndarray }.

(** An HDF5 file: its ["data"] dataset and its ["header"] dataset, whose
    elements stand for the YAML mappings they hold. *)
Record h5file : Type :=
  { h5_data : option ndarray; h5_header : option (list (gmap string pyval)) }.

Inductive file : Type :=
| FitsFile (hdus : list HDU)
| H5File (f : h5file).

Definition filesystem : Type := string -> option file.

(** [fits.open(path)] *)
Definition fits_open (fs : filesystem) (path : string) : result (list HDU) :=
  match fs path with
  | Some (FitsFile hdus) => Ok hdus
  | _ => Raise OSError
  end.

(** [h5py.File(path, "r")] *)
Definition h5py_File (fs : filesystem) (path : string) : result h5file :=
  match fs path with
  | Some (H5File f) => Ok f
  | _ => Raise OSError
  end.

(** [f[name]] on an HDF5 file. *)
Definition dataset {A} (d : option A) : result A :=
  match d with
  | Some a => Ok a
  | None => Raise KeyError
  end.

(** [hdu.data << u.Angstrom] *)
Definition data_quantity (d : option ndarray) : result ndarray :=
  match d with
  | Some a => Ok a
  | None => Raise TypeError
  end.

(** The argument [files]: [str] or list of [str]. *)
Inductive files_arg : Type :=
| Str (path : string)
| Paths (paths : list string).

(** ** class CRISP *)

Module CRISP.

(** What [self.ca] and [self.ha] hold: [.header] and [.data], of a primary
    HDU or of an [ObjDict]. *)
Record cube : Type := { header : gmap string pyval; data : option ndarray }.

(** The instance.  [px_res] is in arcsec / pixel, [pointing] in arcsec and
    [mid] in pixel, the units [__init__] gives them. *)
Record t : Type :=
  { ca : option cube;
    ca_wvls : option ndarray;
    ha : option cube;
    ha_wvls : option ndarray;
    px_res : option arr;
    pointing : option (Q * Q);
    mid : option (Q * Q) }.

Definition mm_sun : Quantity := {| value := Scalar 1391; unit := u.megameter |}.
Definition ang_sun : Quantity := {| value := Scalar 1920; unit := u.arcsec |}.

Definition self_px_res (self : t) : result Quantity :=
  v ← getattr (px_res self);
  Ok {| value := v; unit := u.div u.arcsec u.pixel |}.

Definition self_pointing (self : t) : result Quantity :=
  p ← getattr (pointing self);
  Ok {| value := Vec [p.1; p.2]; unit := u.arcsec |}.

Definition self_mid (self : t) : result Quantity :=
  p ← getattr (mid self);
  Ok {| value := Vec [p.1; p.2]; unit := u.pixel |}.

(** *** __init__ *)

Definition new : t :=
  {| ca := None; ca_wvls := None; ha := None; ha_wvls := None;
     px_res := None; pointing := None; mid := None |}.

Definition set_ca (self : t) (c : cube) (w : ndarray) : t :=
  {| ca := Some c; ca_wvls := Some w; ha := ha self; ha_wvls := ha_wvls self;
     px_res := px_res self; pointing := pointing self; mid := mid self |}.

Definition set_ha (self : t) (c : cube) (w : ndarray) : t :=
  {| ca := ca self; ca_wvls := ca_wvls self; ha := Some c; ha_wvls := Some w;
     px_res := px_res self; pointing := pointing self; mid := mid self |}.

Definition set_geometry (self : t) (r : arr) (p m : Q * Q) : t :=
  {| ca := ca self; ca_wvls := ca_wvls self; ha := ha self; ha_wvls := ha_wvls self;
     px_res := Some r; pointing := Some p; mid := Some m |}.

Definition hdu_cube (h : HDU) : cube :=
  {| header := card_val <$> hdu_header h; data := hdu_data h |}.

(** The branch of the [if ".fits" in f: ... elif ...:] chain that a
    path takes. *)
Inductive kind : Type := FitsKind | H5Kind | NoKind.

Definition file_kind (f : string) : kind :=
  if str_in ".fits" f then FitsKind
  else if truthy ".h5" || str_in ".hdf5" f then H5Kind
  else NoKind.

Section Ingestion.
Variable fs : filesystem.

(** try: header["spect_pos"] << u.Angstrom
    except KeyError: fits.open(f)[1].data << u.Angstrom *)
Definition fits_wvls (f : string) (h : HDU) : result ndarray :=
  try_except
    (c ← subscript (hdu_header h) "spect_pos";
     a ← val_arr (card_val c);
     Ok (arr_ndarray a))
    KeyError
    (hdus ← fits_open fs f;
     ext ← seq_index hdus 1;
     data_quantity (hdu_data ext)).

(** header["CDELT1"] << u.arcsec / u.pixel *)
Definition fits_px_res (h : HDU) : result arr :=
  c ← subscript (hdu_header h) "CDELT1";
  val_arr (card_val c).

(** (header["CRVAL2"], header["CRVAL1"]) << u.arcsec *)
Definition fits_pointing (h : HDU) : result (Q * Q) :=
  y ← subscript (hdu_header h) "CRVAL2";
  x ← subscript (hdu_header h) "CRVAL1";
  val_pair (card_val y) (card_val x).

(** (header["NAXIS2"] // 2, header["NAXIS1"] // 2) << u.pixel *)
Definition fits_mid (h : HDU) : result (Q * Q) :=
  n2 ← subscript (hdu_header h) "NAXIS2";
  y ← val_floordiv2 (card_val n2);
  n1 ← subscript (hdu_header h) "NAXIS1";
  x ← val_floordiv2 (card_val n1);
  Ok (y, x).

(** The ObjDict built from an HDF5 file:
    [data] is [f["data"]], [header] is [yaml.load(f["header"][0])]. *)
Definition h5_cube (f : h5file) : result cube :=
  d ← dataset (h5_data f);
  hs ← dataset (h5_header f);
  h ← seq_index hs 0;
  Ok {| header := h; data := Some d |}.

(** header["spect_pos"] << u.Angstrom *)
Definition h5_wvls (c : cube) : result ndarray :=
  v ← subscript (header c) "spect_pos";
  a ← val_arr v;
  Ok (arr_ndarray a).

(** header["pixel_scale"] << u.arcsec / u.pixel *)
Definition h5_px_res (c : cube) : result arr :=
  v ← subscript (header c) "pixel_scale";
  val_arr v.

(** (header["crval"][-2], header["crval"][-1]) << u.arcsec *)
Definition h5_pointing (c : cube) : result (Q * Q) :=
  v ← subscript (header c) "crval";
  y ← val_index v (-2);
  v' ← subscript (header c) "crval";
  x ← val_index v' (-1);
  val_pair y x.

(** Lines 75 and 112:
    (header["dimensions"][-2] // 2, header["dimensions"][-1] // 2) << u.pixel *)
Definition h5_mid_ca (c : cube) : result (Q * Q) :=
  d ← subscript (header c) "dimensions";
  a ← val_index d (-2);
  y ← val_floordiv2 a;
  d' ← subscript (header c) "dimensions";
  b ← val_index d' (-1);
  x ← val_floordiv2 b;
  Ok (y, x).

(** Line 84:
    (header["dimensions"][-2] // 2, header["dimensions"][-1]) << u.pixel *)
Definition h5_mid_ha (c : cube) : result (Q * Q) :=
  d ← subscript (header c) "dimensions";
  a ← val_index d (-2);
  y ← val_floordiv2 a;
  d' ← subscript (header c) "dimensions";
  b ← val_index d' (-1);
  val_pair (PNum y) b.

(** The body run for a calcium FITS file (lines 49-56 and 89-96). *)
Definition load_fits_ca (self : t) (f : string) : result t :=
  hdus ← fits_open fs f;
  h ← seq_index hdus 0;
  w ← fits_wvls f h;
  r ← fits_px_res h;
  p ← fits_pointing h;
  m ← fits_mid h;
  Ok (set_geometry (set_ca self (hdu_cube h) w) r p m).

(** Lines 58-65. *)
Definition load_fits_ha (self : t) (f : string) : result t :=
  hdus ← fits_open fs f;
  h ← seq_index hdus 0;
  w ← fits_wvls f h;
  r ← fits_px_res h;
  p ← fits_pointing h;
  m ← fits_mid h;
  Ok (set_geometry (set_ha self (hdu_cube h) w) r p m).

(** Lines 98-102: in a list of files, an H-alpha FITS file sets only
    [ha] and [ha_wvls]. *)
Definition load_fits_ha_listed (self : t) (f : string) : result t :=
  hdus ← fits_open fs f;
  h ← seq_index hdus 0;
  w ← fits_wvls f h;
  Ok (set_ha self (hdu_cube h) w).

(** Lines 68-75 and 105-112. *)
Definition load_h5_ca (self : t) (f : string) : result t :=
  file ← h5py_File fs f;
  c ← h5_cube file;
  w ← h5_wvls c;
  r ← h5_px_res c;
  p ← h5_pointing c;
  m ← h5_mid_ca c;
  Ok (set_geometry (set_ca self c w) r p m).

(** Lines 77-84. *)
Definition load_h5_ha (self : t) (f : string) : result t :=
  file ← h5py_File fs f;
  c ← h5_cube file;
  w ← h5_wvls c;
  r ← h5_px_res c;
  p ← h5_pointing c;
  m ← h5_mid_ha c;
  Ok (set_geometry (set_ha self c w) r p m).

(** Lines 114-118. *)
Definition load_h5_ha_listed (self : t) (f : string) : result t :=
  file ← h5py_File fs f;
  c ← h5_cube file;
  w ← h5_wvls c;
  Ok (set_ha self c w).

(** [if type(files) == str:] branch. *)
Definition init_str (self : t) (files : string) : result t :=
  match file_kind files with
  | FitsKind =>
      if str_in "ca" files then load_fits_ca self files
      else load_fits_ha self files
  | H5Kind =>
      if str_in "ca" files then load_h5_ca self files
      else load_h5_ha self files
  | NoKind => Ok self
  end.

(** One turn of [for f in files:]. *)
Definition init_step (self : t) (f : string) : result t :=
  match file_kind f with
  | FitsKind =>
      if str_in "ca" f then load_fits_ca self f
      else load_fits_ha_listed self f
  | H5Kind =>
      if str_in "ca" f then load_h5_ca self f
      else load_h5_ha_listed self f
  | NoKind => Ok self
  end.

Fixpoint init_paths (self : t) (files : list string) : result t :=
  match files with
  | [] => Ok self
  | f :: rest => self' ← init_step self f; init_paths self' rest
  end.

Definition __init__ (files : files_arg) : result t :=
  match files with
  | Str path => init_str new path
  | Paths paths => init_paths new paths
  end.

End Ingestion.

(** *** __str__ *)

(** The returned f-string, kept as the template chosen and the values
    interpolated into it. *)
Inductive template : Type := BothLines | CaOnly | HaOnly.
Inductive stokes : Type := OnlyI | AllStokes.

Record description : Type :=
  { which : template;
    date : pyval;
    time : pyval;
    elements : list pyval;
    samples : list pyval;
    centre_coords : pyval * pyval;
    stokes_present : stokes }.

Definition key_if {A} (field : option A) (name : string) : list string :=
  match field with
  | Some _ => [name]
  | None => []
  end.

(** The keys of [self.__dict__]. *)
Definition dict_keys (self : t) : list string :=
  ["mm_sun"; "ang_sun"]
    ++ key_if (ca self) "ca" ++ key_if (ca_wvls self) "ca_wvls"
    ++ key_if (ha self) "ha" ++ key_if (ha_wvls self) "ha_wvls"
    ++ key_if (px_res self) "px_res" ++ key_if (pointing self) "pointing"
    ++ key_if (mid self) "mid".

(** [name in self.__dict__] *)
Definition in_dict (name : string) (self : t) : bool :=
  bool_decide (name ∈ dict_keys self).

(** The [if / elif / elif] chain of [__str__]:
      if "ca" and "ha" in self.__dict__
      elif "ca" and not "ha" in self.__dict__
      elif not "ca" and "ha" in self.__dict__
    where [in] binds tighter than [not], and [not] tighter than [and]. *)
Definition presence_branch (self : t) : option template :=
  if truthy "ca" && in_dict "ha" self then Some BothLines
  else if truthy "ca" && negb (in_dict "ha" self) then Some CaOnly
  else if negb (truthy "ca") && in_dict "ha" self then Some HaOnly
  else None.

Definition fields : Type := pyval * pyval * list pyval * list pyval * (pyval * pyval).

(** The [try:] block of a one-line branch, on [self.ca] or [self.ha]. *)
Definition fits_fields (line : option cube) : result fields :=
  c ← getattr line;
  v ← subscript (header c) "DATE-AVG";
  date ← val_slice v None (Some 10%Z);
  v' ← subscript (header c) "DATE-AVG";
  time ← val_slice v' (Some 11%Z) (Some (-4)%Z);
  el_1 ← subscript (header c) "WDESC1";
  samp_wvl_1 ← subscript (header c) "NAXIS3";
  x ← subscript (header c) "CRVAL1";
  rx ← val_round3 x;
  y ← subscript (header c) "CRVAL2";
  ry ← val_round3 y;
  Ok (date, time, [el_1], [samp_wvl_1], (rx, ry)).

(** The [except KeyError:] block of a one-line branch. *)
Definition h5_fields (line : option cube) : result fields :=
  c ← getattr line;
  date ← subscript (header c) "date-obs";
  time ← subscript (header c) "time-obs";
  el_1 ← subscript (header c) "element";
  d ← subscript (header c) "dimensions";
  samp_wvl_1 ← val_index d (-3);
  v ← subscript (header c) "crval";
  x ← val_index v (-1);
  v' ← subscript (header c) "crval";
  y ← val_index v' (-2);
  Ok (date, time, [el_1], [samp_wvl_1], (x, y)).

(** The [try:] block of the both-lines branch (lines 123-129). *)
Definition fits_fields_both (self : t) : result fields :=
  c ← getattr (ca self);
  v ← subscript (header c) "DATE-AVG";
  date ← val_slice v None (Some 10%Z);
  v' ← subscript (header c) "DATE-AVG";
  time ← val_slice v' (Some 11%Z) (Some (-4)%Z);
  el_1 ← subscript (header c) "WDESC1";
  samp_wvl_1 ← subscript (header c) "NAXIS3";
  h ← getattr (ha self);
  el_2 ← subscript (header h) "WDESC1";
  samp_wvl_2 ← subscript (header h) "NAXIS3";
  x ← subscript (header c) "CRVAL1";
  rx ← val_round3 x;
  y ← subscript (header c) "CRVAL2";
  ry ← val_round3 y;
  Ok (date, time, [el_1; el_2], [samp_wvl_1; samp_wvl_2], (rx, ry)).

(** The [except KeyError:] block of the both-lines branch (lines 131-137). *)
Definition h5_fields_both (self : t) : result fields :=
  c ← getattr (ca self);
  date ← subscript (header c) "date-obs";
  time ← subscript (header c) "time-obs";
  el_1 ← subscript (header c) "element";
  d ← subscript (header c) "dimensions";
  samp_wvl_1 ← val_index d (-3);
  h ← getattr (ha self);
  el_2 ← subscript (header h) "element";
  d' ← subscript (header h) "dimensions";
  samp_wvl_2 ← val_index d' (-3);
  v ← subscript (header c) "crval";
  x ← val_index v (-1);
  v' ← subscript (header c) "crval";
  y ← val_index v' (-2);
  Ok (date, time, [el_1; el_2], [samp_wvl_1; samp_wvl_2], (x, y)).

(** [if len(line.data.shape) == 3: return f"..." elif ... == 4: return f"..."] *)
Definition render (tpl : template) (line : option cube) (f : fields)
  : result (option description) :=
  c ← getattr line;
  d ← getattr (data c);
  let '(date, time, els, samps, pt) := f in
  let describe s :=
    {| which := tpl; date := date; time := time; elements := els;
       samples := samps; centre_coords := pt; stokes_present := s |} in
  if Nat.eqb (ndim d) 3 then Ok (Some (describe OnlyI))
  else if Nat.eqb (ndim d) 4 then Ok (Some (describe AllStokes))
  else Ok None.

Definition __str__ (self : t) : result (option description) :=
  match presence_branch self with
  | Some BothLines =>
      f ← try_except (fits_fields_both self) KeyError (h5_fields_both self);
      render BothLines (ca self) f
  | Some CaOnly =>
      f ← try_except (fits_fields (ca self)) KeyError (h5_fields (ca self));
      render CaOnly (ca self) f
  | Some HaOnly =>
      f ← try_except (fits_fields (ha self)) KeyError (h5_fields (ha self));
      render HaOnly (ha self) f
  | None => Ok None
  end.

(** *** unit_conversion *)

(** [coord.unit]: the argument is a quantity, or [None] when it is the
    result of a call that fell off its end. *)
Definition quantity (coord : option Quantity) : result Quantity :=
  match coord with
  | Some c => Ok c
  | None => Raise AttributeError
  end.

(** The body of the method; [unit_conversion] stands for the calls of
    [self.unit_conversion] inside it. *)
Definition unit_conversion_body
    (unit_conversion : option Quantity -> string -> bool -> result (option Quantity))
    (self : t) (coord : option Quantity) (unit_to : string) (centre : bool)
  : result (option Quantity) :=
  if negb centre then
    if String.eqb unit_to "pix" then
      c ← quantity coord;
      if u.eqb (unit c) u.pixel then Ok (Some c)
      else if u.eqb (unit c) u.arcsec then
        r ← self_px_res self;
        q ← q_div c r;
        Ok (Some (np_round q))
      else if u.eqb (unit c) u.megameter then
        a ← q_mul c ang_sun;
        b ← q_div a mm_sun;
        r ← self_px_res self;
        q ← q_div b r;
        Ok (Some (np_round q))
      else Ok None
    else if String.eqb unit_to "arcsec" then
      c ← quantity coord;
      if u.eqb (unit c) u.pixel then
        r ← self_px_res self;
        q ← q_mul c r;
        Ok (Some q)
      else if u.eqb (unit c) u.arcsec then Ok (Some c)
      else if u.eqb (unit c) u.megameter then
        k ← q_div ang_sun mm_sun;
        q ← q_mul c k;
        Ok (Some q)
      else Ok None
    else if String.eqb unit_to "Mm" then
      c ← quantity coord;
      if u.eqb (unit c) u.pixel then
        r ← self_px_res self;
        a ← q_mul c r;
        b ← q_mul a mm_sun;
        q ← q_div b ang_sun;
        Ok (Some q)
      else if u.eqb (unit c) u.arcsec then
        a ← q_mul c mm_sun;
        q ← q_div a ang_sun;
        Ok (Some q)
      else if u.eqb (unit c) u.megameter then Ok (Some c)
      else Ok None
    else Ok None
  else
    if String.eqb unit_to "pix" then
      c ← quantity coord;
      if u.eqb (unit c) u.pixel then Ok (Some c)
      else if u.eqb (unit c) u.arcsec then
        p ← self_pointing self;
        d ← q_sub c p;
        r ← self_px_res self;
        q ← q_div d r;
        let px_diff := np_round q in
        m ← self_mid self;
        s ← q_add m px_diff;
        Ok (Some s)
      else if u.eqb (unit c) u.megameter then
        unit_conversion coord "pix" false
      else Ok None
    else if String.eqb unit_to "arcsec" then
      c ← quantity coord;
      if u.eqb (unit c) u.pixel then
        m ← self_mid self;
        d ← q_sub c m;
        r ← self_px_res self;
        e ← q_mul d r;
        p ← self_pointing self;
        s ← q_add e p;
        Ok (Some s)
      else if u.eqb (unit c) u.arcsec then
        m ← self_mid self;
        r ← self_px_res self;
        k ← q_mul m r;
        d ← q_sub c k;
        p ← self_pointing self;
        s ← q_add d p;
        Ok (Some s)
      else if u.eqb (unit c) u.megameter then
        inner ← unit_conversion coord "pix" false;
        unit_conversion inner "arcsec" true
      else Ok None
    else if String.eqb unit_to "megameter" then
      c ← quantity coord;
      if u.eqb (unit c) u.pixel then
        Raise NameError (* the name [coords] is not defined *)
      else if u.eqb (unit c) u.arcsec then
        inner ← unit_conversion coord "pix" true;
        unit_conversion inner "megameter" false
      else if u.eqb (unit c) u.megameter then Ok (Some c)
      else Ok None
    else Ok None.

(** [depth] bounds the nesting of calls, as the interpreter's recursion
    limit does. *)
Fixpoint unit_conversion_rec (depth : nat) (self : t) (coord : option Quantity)
    (unit_to : string) (centre : bool) {struct depth} : result (option Quantity) :=
  match depth with
  | O => Raise RecursionError
  | S depth' =>
      unit_conversion_body (unit_conversion_rec depth' self) self coord unit_to centre
  end.

Definition recursion_limit : nat := 1000.

Definition unit_conversion (self : t) (coord : option Quantity)
    (unit_to : string) (centre : bool) : result (option Quantity) :=
  unit_conversion_rec recursion_limit self coord unit_to centre.

Arguments unit_conversion : simpl never.

(** *** intensity_vector *)

(** [*coord] inside a subscript: the components of a 1-d quantity. *)
Definition unpack (coord : option Quantity) : result (list Q) :=
  match coord with
  | None => Raise TypeError
  | Some c =>
      match value c with
      | Scalar _ => Raise TypeError
      | Vec xs => Ok xs
      end
  end.

(** A component of [*coord] used as an array index.  Iterating a quantity
    gives quantities: each component is a scalar in pixels of float dtype,
    whatever its value, and neither [int] nor [.value] is applied to it.
    An array takes integers, slices and integer or boolean arrays as
    indices; it refuses such a scalar. *)
Definition as_index (x : Q) : result index := Raise IndexError.

Fixpoint as_indices (xs : list Q) : result (list index) :=
  match xs with
  | [] => Ok []
  | x :: rest => i ← as_index x; ixs ← as_indices rest; Ok (i :: ixs)
  end.

(** [d[pre, *coord]]: the index tuple is [pre] followed by the components
    of the coordinate, so only a coordinate without components indexes. *)
Definition subscript_data (d : option ndarray) (pre : list index) (xs : list Q)
  : result ndarray :=
  match d with
  | None => Raise TypeError
  | Some a => ixs ← as_indices xs; getitem a (pre ++ ixs)
  end.

Definition intensity_vector (self : t) (coord : option Quantity) (line : string)
    (pol centre : bool) : result (option ndarray) :=
  if String.eqb line "ha" && pol then Raise WiseGuyError
  else
    coord ← unit_conversion self coord "pix" centre;
    if String.eqb (lower line) "ca" then
      if negb pol then
        c ← getattr (ca self);
        d ← getattr (data c);
        if Nat.eqb (ndim d) 4 then
          xs ← unpack coord;
          r ← subscript_data (Some d) [Idx 0; All] xs;
          Ok (Some r)
        else
          xs ← unpack coord;
          r ← subscript_data (Some d) [All] xs;
          Ok (Some r)
      else
        c ← getattr (ca self);
        d ← getattr (data c);
        if Nat.eqb (ndim d) 4 then
          xs ← unpack coord;
          r ← subscript_data (Some d) [All; All] xs;
          Ok (Some r)
        else Raise WiseGuyError
    else if String.eqb (lower line) "ha" then
      h ← getattr (ha self);
      xs ← unpack coord;
      r ← subscript_data (data h) [All] xs;
      Ok (Some r)
    else Ok None.

End CRISP.

(** ** mixin.py: class InversionSlicingMixin(NDSlicingMixin) *)

Module InversionSlicingMixin.

(** The names bound at module level in mixin.py: two imports and three
    classes. *)
Definition module_names : list string :=
  ["NDSlicingMixin"; "ObjDict"; "CRISPSlicingMixin";
   "CRISPSequenceSlicingMixin"; "InversionSlicingMixin"].

(** Reading a bare name inside a method. *)
Definition load_name (name : string) : result string :=
  if bool_decide (name ∈ module_names) then Ok name else Raise NameError.

Section Slicing.
(** The sliced world-coordinate system that [_slice_wcs] of the parent
    class returns, and the object that the class builds. *)
Variables W T : Type.

Inductive kwarg : Type :=
| ObjDict (d : gmap string ndarray)
| Wcs (w : W)
| Global (name : string).

Record t : Type :=
  { ne : option ndarray;
    temp : option ndarray;
    vel : option ndarray;
    err : option ndarray;
    _slice_wcs : list index -> result W;
    __class__ : gmap string kwarg -> result T }.

(** [kwargs["filename"][key] = v] *)
Definition set_filename (kwargs : gmap string kwarg) (key : string) (v : ndarray)
  : result (gmap string kwarg) :=
  match kwargs !! "filename" with
  | Some (ObjDict d) => Ok (<["filename" := ObjDict (<[key := v]> d)]> kwargs)
  | Some _ => Raise TypeError
  | None => Raise KeyError
  end.

(** The body has no [return]: a run that reached its end would give
    [None]. *)
Definition _slice (self : t) (item : list index)
  : result (option (gmap string kwarg)) :=
  let kwargs : gmap string kwarg := ∅ in
  let kwargs := <["filename" := ObjDict ∅]> kwargs in
  a ← getattr (ne self);
  v ← getitem a item;
  kwargs ← set_filename kwargs "ne" v;
  a ← getattr (temp self);
  v ← getitem a item;
  kwargs ← set_filename kwargs "temperature" v;
  a ← getattr (vel self);
  v ← getitem a item;
  kwargs ← set_filename kwargs "vel" v;
  a ← getattr (err self);
  v ← getitem a item;
  kwargs ← set_filename kwargs "mad" v;
  w ← _slice_wcs self item;
  let kwargs := <["wcs" := Wcs w]> kwargs in
  z ← load_name "z";
  let kwargs := <["z" := Global z]> kwargs in
  header ← load_name "header";
  let kwargs := <["header" := Global header]> kwargs in
  Ok None.

(** The mapping returned by [_slice] is unpacked into the call of
    [self.__class__]; [None] cannot be unpacked. *)
Definition __getitem__ (self : t) (item : list index) : result T :=
  kwargs ← _slice self item;
  match kwargs with
  | Some k => __class__ self k
  | None => Raise TypeError
  end.

End Slicing.

Arguments ObjDict {W} d.
Arguments Wcs {W} w.
Arguments Global {W} name.
Arguments ne {W T} self : rename.
Arguments temp {W T} self : rename.
Arguments vel {W T} self : rename.
Arguments err {W T} self : rename.
Arguments _slice_wcs {W T} self item : rename.
Arguments __class__ {W T} self kwargs : rename.
Arguments set_filename {W} kwargs key v.
Arguments _slice {W T} self item.
Arguments __getitem__ {W T} self item.

End InversionSlicingMixin.

(** ** mixin.py: class CRISPSlicingMixin(NDSlicingMixin) *)

Module CRISPSlicingMixin.

Section Slicing.
(** What [_slice_uncertainty], [_slice_mask] and [_slice_wcs] of the parent
    class return, what [self.nonu] holds, and the object the class builds. *)
Variables U M W N T : Type.

(** A value stored in [kwargs["filename"]]. *)
Inductive entry : Type :=
| Data (a : ndarray)
| Header (h : gmap string pyval).

Inductive kwarg : Type :=
| Filename (d : gmap string entry)
| Uncertainty (x : U)
| Mask (m : M)
| Wcs (w : W)
| Nonu (n : N).

Record t : Type :=
  { file : option CRISP.cube;
    nonu : option N;
    _slice_uncertainty : list index -> result U;
    _slice_mask : list index -> result M;
    _slice_wcs : list index -> result W;
    __class__ : gmap string kwarg -> result T }.

(** [kwargs["filename"][key] = v] *)
Definition set_filename (kwargs : gmap string kwarg) (key : string) (v : entry)
  : result (gmap string kwarg) :=
  match kwargs !! "filename" with
  | Some (Filename d) => Ok (<["filename" := Filename (<[key := v]> d)]> kwargs)
  | Some _ => Raise TypeError
  | None => Raise KeyError
  end.

(** [data[item]] where [data] may be [None]. *)
Definition sliced (d : option ndarray) (item : list index) : result ndarray :=
  match d with
  | Some a => getitem a item
  | None => Raise TypeError
  end.

Definition _slice (self : t) (item : list index) : result (gmap string kwarg) :=
  let kwargs : gmap string kwarg := ∅ in
  let kwargs := <["filename" := Filename ∅]> kwargs in
  f ← getattr (file self);
  v ← sliced (CRISP.data f) item;
  kwargs ← set_filename kwargs "data" (Data v);
  x ← _slice_uncertainty self item;
  let kwargs := <["uncertainty" := Uncertainty x]> kwargs in
  m ← _slice_mask self item;
  let kwargs := <["mask" := Mask m]> kwargs in
  w ← _slice_wcs self item;
  let kwargs := <["wcs" := Wcs w]> kwargs in
  f ← getattr (file self);
  kwargs ← set_filename kwargs "header" (Header (CRISP.header f));
  n ← getattr (nonu self);
  let kwargs := <["nonu" := Nonu n]> kwargs in
  Ok kwargs.

(** The mapping returned by [_slice] is unpacked into the call of
    [self.__class__]. *)
Definition __getitem__ (self : t) (item : list index) : result T :=
  kwargs ← _slice self item;
  __class__ self kwargs.

End Slicing.

Arguments Filename {U M W N} d.
Arguments Uncertainty {U M W N} x.
Arguments Mask {U M W N} m.
Arguments Wcs {U M W N} w.
Arguments Nonu {U M W N} n.
Arguments file {U M W N T} self : rename.
Arguments nonu {U M W N T} self : rename.
Arguments _slice_uncertainty {U M W N T} self item : rename.
Arguments _slice_mask {U M W N T} self item : rename.
Arguments _slice_wcs {U M W N T} self item : rename.
Arguments __class__ {U M W N T} self kwargs : rename.
Arguments set_filename {U M W N} kwargs key v.
Arguments _slice {U M W N T} self item.
Arguments __getitem__ {U M W N T} self item.

End CRISPSlicingMixin.

(** ** mixin.py: class CRISPSequenceSlicingMixin(CRISPSlicingMixin) *)

Module CRISPSequenceSlicingMixin.

Section Slicing.
Variables U M W N T S : Type.

(** [self.list] holds the members; the class is built from the list of
    their [_slice] results. *)
Record t : Type :=
  { members : option (list (CRISPSlicingMixin.t U M W N T));
    __class__ : list (gmap string (CRISPSlicingMixin.kwarg U M W N)) -> result S }.

(** [[f._slice(item) for f in l]] *)
Fixpoint slices (l : list (CRISPSlicingMixin.t U M W N T)) (item : list index)
  : result (list (gmap string (CRISPSlicingMixin.kwarg U M W N))) :=
  match l with
  | [] => Ok []
  | f :: rest =>
      k ← CRISPSlicingMixin._slice f item;
      ks ← slices rest item;
      Ok (k :: ks)
  end.

Definition _slice (self : t) (item : list index)
  : result (list (gmap string (CRISPSlicingMixin.kwarg U M W N))) :=
  l ← getattr (members self);
  slices l item.

Definition __getitem__ (self : t) (item : list index) : result S :=
  args ← _slice self item;
  __class__ self args.

End Slicing.

Arguments members {U M W N T S} self : rename.
Arguments __class__ {U M W N T S} self args : rename.
Arguments slices {U M W N T} l item.
Arguments _slice {U M W N T S} self item.
Arguments __getitem__ {U M W N T S} self item.

End CRISPSequenceSlicingMixin.

(** ** class ObjDict(dict) *)

Module ObjDict.

Section Attributes.
Variable V : Type.

(** if name in self: return self[name]
    else: raise AttributeError *)
Definition __getattr__ (self : gmap string V) (name : string) : result V :=
  match self !! name with
  | Some v => Ok v
  | None => Raise AttributeError
  end.

(** self[name] = value *)
Definition __setattr__ (self : gmap string V) (name : string) (value : V)
  : gmap string V :=
  <[name := value]> self.

(** if name in self: del self[name]
    else: raise AttributeError *)
Definition __delattr__ (self : gmap string V) (name : string)
  : result (gmap string V) :=
  match self !! name with
  | Some _ => Ok (delete name self)
  | None => Raise AttributeError
  end.

End Attributes.

Arguments __getattr__ {V} self name.
Arguments __setattr__ {V} self name value.
Arguments __delattr__ {V} self name.

End ObjDict.

(** ** Notions used in the statements *)

(** Two arrays of one shape, related element by element. *)
Inductive arr_rel (R : Q -> Q -> Prop) : arr -> arr -> Prop :=
| rel_scalar x y : R x y -> arr_rel R (Scalar x) (Scalar y)
| rel_vec xs ys : Forall2 R xs ys -> arr_rel R (Vec xs) (Vec ys).

(** The same unit and numerically equal values. *)
Definition same_quantity (a b : Quantity) : Prop :=
  unit a = unit b /\ arr_rel Qeq (value a) (value b).

(** A result that is not the module's own exception. *)
Definition library_error {A} (m : result A) : Prop := m <> Raise WiseGuyError.

(** A call that raises. *)
Definition fails {A} (m : result A) : Prop := exists e, m = Raise e.

(** The stand-in for the nested calls of a call that makes none. *)
Definition no_calls : option Quantity -> string -> bool -> result (option Quantity) :=
  fun _ _ _ => Raise RecursionError.

(** [y] recovers [x]: within half a unit of it, and equal to it when [x] is
    whole. *)
Definition recovered (x y : Q) : Prop :=
  (Qabs (y - x) <= 1 # 2)%Q /\ (is_whole x -> (y == x)%Q).

(** A coordinate that broadcasts against a (y, x) pair. *)
Definition broadcasts_to_pair (a : arr) : bool :=
  match a with
  | Scalar _ | Vec [_] | Vec [_; _] => true
  | _ => false
  end.

(** The unit that a target name stands for.  The megametre is called "Mm"
    when [centre] is false and "megameter" when it is true. *)
Definition named_unit (name : string) (centre : bool) : option u.t :=
  if String.eqb name "pix" then Some u.pixel
  else if String.eqb name "arcsec" then Some u.arcsec
  else if String.eqb name (if centre then "megameter" else "Mm") then Some u.megameter
  else None.

(** [b] is the pixel got back for [y] around the centre [m]: within half a
    pixel of [y], and [y] itself when [y] is a whole number of pixels away
    from the centre. *)
Definition recentred (m y b : Q) : Prop :=
  (Qabs (b - y) <= 1 # 2)%Q /\ (is_whole (y - m) -> (b == y)%Q).

(** Whether an attribute holds a value. *)
Definition present {A} (field : option A) : bool :=
  match field with
  | Some _ => true
  | None => false
  end.

(** The keyword arguments of a sliced CRISP object, in the order in which
    [_slice] inserts them. *)
Definition keywords {U M W N : Type}
    (v : ndarray) (h : gmap string pyval) (x : U) (m : M) (w : W) (n : N)
  : gmap string (CRISPSlicingMixin.kwarg U M W N) :=
  list_to_map
    [("filename",
      CRISPSlicingMixin.Filename
        (list_to_map [("data", CRISPSlicingMixin.Data v);
                      ("header", CRISPSlicingMixin.Header h)]));
     ("uncertainty", CRISPSlicingMixin.Uncertainty x);
     ("mask", CRISPSlicingMixin.Mask m);
     ("wcs", CRISPSlicingMixin.Wcs w);
     ("nonu", CRISPSlicingMixin.Nonu n)].

(** ** Sample observations *)

Definition image (sh : list nat) : ndarray :=
  {| shape := sh; item := fun js => inject_Z (Z.of_nat (list_sum js)) |}.

(** A primary header without [spect_pos]. *)
Definition primary_cards : gmap string card :=
  list_to_map
    [("CDELT1", CNum (592 # 10000)); ("CRVAL1", CNum 10); ("CRVAL2", CNum (-5));
     ("NAXIS1", CNum 1000); ("NAXIS2", CNum 1000); ("NAXIS3", CNum 3)].

Definition primary : HDU :=
  {| hdu_header := primary_cards; hdu_data := Some (image [3; 1000; 1000]%nat) |}.

Definition wavelength_ext : HDU :=
  {| hdu_header := ∅; hdu_data := Some (image [3%nat]) |}.

Definition empty_ext : HDU := {| hdu_header := ∅; hdu_data := None |}.

Definition yaml_header : gmap string pyval :=
  list_to_map
    [("spect_pos", PList [6562; 6563; 6564]%Q); ("pixel_scale", PNum (59 # 1000));
     ("crval", PList [0; -5; 10]%Q); ("dimensions", PList [3; 1000; 1000]%Q);
     ("element", PStr "H I 6563"); ("date-obs", PStr "2014-09-06");
     ("time-obs", PStr "16:53:00")].

Definition h5obs : h5file :=
  {| h5_data := Some (image [3; 1000; 1000]%nat); h5_header := Some [yaml_header] |}.

Definition disk : filesystem := fun path =>
  if String.eqb path "ca_8542.fits" then Some (FitsFile [primary])
  else if String.eqb path "ca_8542_nodata.fits" then Some (FitsFile [primary; empty_ext])
  else if String.eqb path "halpha.fits" then Some (FitsFile [primary; wavelength_ext])
  else if String.eqb path "halpha.h5" then Some (H5File h5obs)
  else if String.eqb path "ca_8542.h5" then Some (H5File h5obs)
  else if String.eqb path "halpha.dat" then Some (H5File h5obs)
  else None.

(** An accessor holding both lines, the calcium cube with or without the
    Stokes axis. *)
Definition observation (polarimetric : bool) : CRISP.t :=
  {| CRISP.ca :=
       Some {| CRISP.header := ∅;
               CRISP.data :=
                 Some (image (if polarimetric then [4; 3; 1024; 1024]
                              else [3; 1024; 1024])%nat) |};
     CRISP.ca_wvls := Some (image [3%nat]);
     CRISP.ha := Some {| CRISP.header := ∅;
                         CRISP.data := Some (image [3; 1024; 1024]%nat) |};
     CRISP.ha_wvls := Some (image [3%nat]);
     CRISP.px_res := Some (Scalar (59 # 1000));
     CRISP.pointing := Some (100, 200)%Q;
     CRISP.mid := Some (512, 512)%Q |}.

Definition pixels (xs : list Q) : option Quantity :=
  Some {| value := Vec xs; unit := u.pixel |}.

Definition megametres (xs : list Q) : Quantity :=
  {| value := Vec xs; unit := u.megameter |}.

(** The instance that a construction gave. *)
Definition loaded (r : result CRISP.t) : CRISP.t :=
  match r with
  | Ok self => self
  | Raise _ => CRISP.new
  end.

Definition halpha_fits : CRISP.t := loaded (CRISP.__init__ disk (Str "halpha.fits")).
Definition halpha_h5 : CRISP.t := loaded (CRISP.__init__ disk (Str "halpha.h5")).
Definition calcium_h5 : CRISP.t := loaded (CRISP.__init__ disk (Str "ca_8542.h5")).
Definition halpha_dat : CRISP.t := loaded (CRISP.__init__ disk (Str "halpha.dat")).

(** A primary header whose CDELT1 card is a string. *)
Definition quoted_primary : HDU :=
  {| hdu_header := <["CDELT1" := CStr "0.0592"]> primary_cards;
     hdu_data := Some (image [3; 1000; 1000]%nat) |}.

Definition archive : filesystem := fun path =>
  if String.eqb path "halpha_quoted.fits"
  then Some (FitsFile [quoted_primary; wavelength_ext])
  else disk path.

Definition halpha_quoted : CRISP.t :=
  loaded (CRISP.__init__ archive (Str "halpha_quoted.fits")).

Definition halpha_listed : CRISP.t :=
  loaded (CRISP.__init__ disk (Paths ["halpha.fits"])).

(** The keyword arguments of an object whose parent class slices nothing. *)
Definition plain_kwargs : Type :=
  gmap string
    (CRISPSlicingMixin.kwarg Datatypes.unit Datatypes.unit Datatypes.unit Datatypes.unit).

Definition plain : Type :=
  CRISPSlicingMixin.t Datatypes.unit Datatypes.unit Datatypes.unit Datatypes.unit
    plain_kwargs.

(** An object of a class that keeps its keyword arguments, with parent
    methods that have nothing to slice. *)
Definition sliceable (f : option CRISP.cube) : plain :=
  {| CRISPSlicingMixin.file := f;
     CRISPSlicingMixin.nonu := Some tt;
     CRISPSlicingMixin._slice_uncertainty := fun _ => Ok tt;
     CRISPSlicingMixin._slice_mask := fun _ => Ok tt;
     CRISPSlicingMixin._slice_wcs := fun _ => Ok tt;
     CRISPSlicingMixin.__class__ := fun kwargs => Ok kwargs |}.

Definition small_cube : CRISP.cube :=
  {| CRISP.header := yaml_header; CRISP.data := Some (image [3; 4; 4]%nat) |}.

(** A sequence of a class that keeps its argument. *)
Definition sequence (l : list plain)
  : CRISPSequenceSlicingMixin.t Datatypes.unit Datatypes.unit Datatypes.unit
      Datatypes.unit plain_kwargs (list plain_kwargs) :=
  {| CRISPSequenceSlicingMixin.members := Some l;
     CRISPSequenceSlicingMixin.__class__ := fun args => Ok args |}.

(** * Properties *)

(** ** Results and rounding *)

Lemma bind_Ok {A B} (a : A) (k : A -> result B) : (Ok a ≫= k) = k a.
Proof. reflexivity. Qed.

Lemma bind_Raise {A B} (e : exn) (k : A -> result B) : (Raise e ≫= k) = Raise e.
Proof. reflexivity. Qed.

Lemma round_half_even_comp (x y : Q) :
  (x == y)%Q -> round_half_even x = round_half_even y.
Proof.
  intros H. unfold round_half_even.
  rewrite (Qfloor_comp x y H).
  assert (E : ((x - inject_Z (Qfloor y) ?= 1 # 2) = (y - inject_Z (Qfloor y) ?= 1 # 2))%Q)
    by (now rewrite H).
  now rewrite E.
Qed.

(** Rounding moves a number by at most one half. *)
Lemma round_half_even_near (x : Q) :
  (Qabs (inject_Z (round_half_even x) - x) <= 1 # 2)%Q.
Proof.
  unfold round_half_even.
  pose proof (Qfloor_le x) as Hlo.
  pose proof (Qlt_floor x) as Hhi.
  rewrite inject_Z_plus in Hhi. change (inject_Z 1) with 1%Q in Hhi.
  apply Qabs_Qle_condition.
  destruct (Qcompare_spec (x - inject_Z (Qfloor x)) (1 # 2)) as [E | E | E].
  - destruct (Z.even (Qfloor x)).
    + split; lra.
    + rewrite inject_Z_plus. change (inject_Z 1) with 1%Q. split; lra.
  - split; lra.
  - rewrite inject_Z_plus. change (inject_Z 1) with 1%Q. split; lra.
Qed.

Lemma round_half_even_Z (z : Z) : round_half_even (inject_Z z) = z.
Proof.
  unfold round_half_even. rewrite Qfloor_Z.
  destruct (Qcompare_spec (inject_Z z - inject_Z z) (1 # 2)) as [E | E | E];
    [lra | reflexivity | lra].
Qed.

(** Rounding leaves a whole number where it is. *)
Lemma round_half_even_whole (x : Q) :
  is_whole x -> (inject_Z (round_half_even x) == x)%Q.
Proof.
  unfold is_whole. intros H.
  rewrite <- (round_half_even_comp _ _ H), round_half_even_Z. exact H.
Qed.

(** ** Units of intermediate results *)

Lemma q_mul_unit a b q : q_mul a b = Ok q -> unit q = u.mul (unit a) (unit b).
Proof.
  unfold q_mul. destruct (broadcast Qmult (value a) (value b)); cbn; [|discriminate].
  now intros [= <-].
Qed.

Lemma q_div_unit a b q : q_div a b = Ok q -> unit q = u.div (unit a) (unit b).
Proof.
  unfold q_div. destruct (broadcast Qdiv (value a) (value b)); cbn; [|discriminate].
  now intros [= <-].
Qed.

Lemma self_px_res_unit self r :
  CRISP.self_px_res self = Ok r -> unit r = u.div u.arcsec u.pixel.
Proof.
  unfold CRISP.self_px_res. destruct (CRISP.px_res self); cbn; [|discriminate].
  now intros [= <-].
Qed.

Lemma u_eqb_eq a b : u.eqb a b = true -> a = b.
Proof. unfold u.eqb. apply bool_decide_eq_true. Qed.

(** ** The recursion of unit_conversion *)

Section UnitConversion.
Import CRISP.
Variable self : CRISP.t.

Lemma unit_conversion_S (n : nat) coord unit_to centre :
  unit_conversion_rec (S n) self coord unit_to centre
  = unit_conversion_body (unit_conversion_rec n self) self coord unit_to centre.
Proof. reflexivity. Qed.

(** With [centre=False] no nested call is made. *)
Lemma unit_conversion_flat (n : nat) coord unit_to :
  unit_conversion_rec (S n) self coord unit_to false
  = unit_conversion_body no_calls self coord unit_to false.
Proof. reflexivity. Qed.

(** The flat conversion of a megametre coordinate to pixels is in pixels. *)
Lemma megameter_to_pix_unit f c r :
  unit c = u.megameter ->
  unit_conversion_body f self (Some c) "pix" false = Ok r ->
  exists q, r = Some q /\ unit q = u.pixel.
Proof.
  intros Hc. unfold unit_conversion_body. cbn [negb quantity mbind result_bind].
  rewrite Hc. cbn [mbind result_bind].
  change (String.eqb "pix" "pix") with true. cbv iota.
  change (u.eqb u.megameter u.pixel) with false.
  change (u.eqb u.megameter u.arcsec) with false.
  change (u.eqb u.megameter u.megameter) with true. cbv iota.
  destruct (q_mul c ang_sun) as [a|] eqn:Ea; cbn [mbind result_bind]; [|discriminate].
  destruct (q_div a mm_sun) as [b|] eqn:Eb; cbn [mbind result_bind]; [|discriminate].
  destruct (self_px_res self) as [p|] eqn:Ep; cbn [mbind result_bind]; [|discriminate].
  destruct (q_div b p) as [q|] eqn:Eq; cbn [mbind result_bind]; [|discriminate].
  intros [= <-]. eexists; split; [reflexivity|].
  cbn [np_round unit].
  rewrite (q_div_unit _ _ _ Eq), (q_div_unit _ _ _ Eb), (q_mul_unit _ _ _ Ea), Hc,
    (self_px_res_unit _ _ Ep).
  reflexivity.
Qed.

Lemma pix_to_arcsec_centred_no_calls f g c :
  unit c = u.pixel ->
  unit_conversion_body f self (Some c) "arcsec" true
  = unit_conversion_body g self (Some c) "arcsec" true.
Proof.
  intros Hc. unfold unit_conversion_body. cbn [negb quantity mbind result_bind].
  rewrite Hc. reflexivity.
Qed.

Lemma arcsec_to_pix_centred_no_calls f g c :
  unit c = u.arcsec ->
  unit_conversion_body f self (Some c) "pix" true
  = unit_conversion_body g self (Some c) "pix" true.
Proof.
  intros Hc. unfold unit_conversion_body. cbn [negb quantity mbind result_bind].
  rewrite Hc. reflexivity.
Qed.

(** Two nested calls are the deepest the method makes. *)
Lemma unit_conversion_rec_stable (n : nat) coord unit_to centre :
  unit_conversion_rec (S (S n)) self coord unit_to centre
  = unit_conversion_rec 2 self coord unit_to centre.
Proof.
  rewrite (unit_conversion_S (S n)), (unit_conversion_S 1).
  destruct centre; [|reflexivity].
  unfold unit_conversion_body. cbn [negb].
  destruct (String.eqb unit_to "pix").
  { destruct coord as [c|]; cbn [quantity mbind result_bind]; [|reflexivity].
    repeat (destruct (u.eqb (unit c) _); [reflexivity|]). reflexivity. }
  destruct (String.eqb unit_to "arcsec").
  { destruct coord as [c|]; cbn [quantity mbind result_bind]; [|reflexivity].
    destruct (u.eqb (unit c) u.pixel); [reflexivity|].
    destruct (u.eqb (unit c) u.arcsec); [reflexivity|].
    destruct (u.eqb (unit c) u.megameter) eqn:E; [|reflexivity].
    apply u_eqb_eq in E.
    rewrite !unit_conversion_flat.
    destruct (unit_conversion_body no_calls self (Some c) "pix" false) as [r|] eqn:Er;
      cbn [mbind result_bind]; [|reflexivity].
    destruct (megameter_to_pix_unit _ _ _ E Er) as (q & -> & Hq).
    rewrite !unit_conversion_S. now apply pix_to_arcsec_centred_no_calls. }
  destruct (String.eqb unit_to "megameter"); [|reflexivity].
  destruct coord as [c|]; cbn [quantity mbind result_bind]; [|reflexivity].
  destruct (u.eqb (unit c) u.pixel); [reflexivity|].
  destruct (u.eqb (unit c) u.arcsec) eqn:E; [|reflexivity].
  apply u_eqb_eq in E.
  rewrite !unit_conversion_S.
  rewrite (arcsec_to_pix_centred_no_calls
             (unit_conversion_rec n self) (unit_conversion_rec 0 self) _ E).
  destruct (unit_conversion_body (unit_conversion_rec 0 self) self (Some c) "pix" true);
    reflexivity.
Qed.

Lemma unit_conversion_rec_limit (n m : nat) coord unit_to centre :
  unit_conversion_rec (S (S n)) self coord unit_to centre
  = unit_conversion_rec (S (S m)) self coord unit_to centre.
Proof.
  rewrite (unit_conversion_rec_stable n), (unit_conversion_rec_stable m). reflexivity.
Qed.

Lemma unit_conversion_body_ext f g coord unit_to centre :
  (forall c ut ce, f c ut ce = g c ut ce) ->
  unit_conversion_body f self coord unit_to centre
  = unit_conversion_body g self coord unit_to centre.
Proof.
  intros H. unfold unit_conversion_body.
  destruct centre; cbn [negb]; [|reflexivity].
  repeat (destruct (String.eqb unit_to _);
          [destruct coord as [c|]; cbn [quantity mbind result_bind]; [|reflexivity];
           repeat (destruct (u.eqb (unit c) _); [try reflexivity|]); try reflexivity|]);
    try reflexivity.
  - apply H.
  - rewrite H. destruct (g (Some c) "pix" false); cbn [mbind result_bind];
      [apply H | reflexivity].
  - rewrite H. destruct (g (Some c) "pix" true); cbn [mbind result_bind];
      [apply H | reflexivity].
Qed.

(** The method satisfies the equation of its body: the recursion limit is
    never met. *)
Lemma unit_conversion_eq coord unit_to centre :
  unit_conversion self coord unit_to centre
  = unit_conversion_body (unit_conversion self) self coord unit_to centre.
Proof.
  unfold unit_conversion. change recursion_limit with (S (S (S 997))).
  rewrite (unit_conversion_S (S (S 997))).
  apply unit_conversion_body_ext. intros c ut ce.
  apply (unit_conversion_rec_limit 997 998).
Qed.

End UnitConversion.

Opaque CRISP.unit_conversion.

(** Evaluate the comparisons of known units, then simplify. *)
Ltac eval_units :=
  repeat match goal with
         | |- context [u.eqb ?a ?b] =>
             let v := eval vm_compute in (u.eqb a b) in
             match v with true => idtac | false => idtac end;
             change (u.eqb a b) with v
         end.

Ltac run :=
  cbn -[Qplus Qminus Qmult Qdiv]; eval_units; cbn -[Qplus Qminus Qmult Qdiv].

Lemma q_add_unit a b q : q_add a b = Ok q -> unit q = unit a.
Proof.
  unfold q_add. destruct (u.eqb (unit a) (unit b)); [|discriminate].
  destruct (broadcast Qplus (value a) (value b)); cbn; [|discriminate].
  now intros [= <-].
Qed.

Lemma q_sub_unit a b q : q_sub a b = Ok q -> unit q = unit a.
Proof.
  unfold q_sub. destruct (u.eqb (unit a) (unit b)); [|discriminate].
  destruct (broadcast Qminus (value a) (value b)); cbn; [|discriminate].
  now intros [= <-].
Qed.

(** ** Unit conversion *)

Section Conversions.
Import CRISP.

(** C7.  Whatever the pointing, the centre pixel and the pixel resolution
    of the accessor, converting the centre pixel, given in pixels, to
    arcseconds with [centre=True] gives the pointing: the same unit and
    equal components. *)
Theorem centre_pixel_converts_to_pointing (self : CRISP.t) (r : Q) (p m : Quantity) :
  px_res self = Some (Scalar r) ->
  self_pointing self = Ok p ->
  self_mid self = Ok m ->
  exists q, unit_conversion self (Some m) "arcsec" true = Ok (Some q)
            /\ same_quantity q p.
Proof.
  intros Hr Hp Hm.
  rewrite unit_conversion_eq. unfold unit_conversion_body.
  rewrite Hm, Hp. unfold self_px_res. rewrite Hr.
  unfold self_mid in Hm. destruct (mid self) as [[my mx]|]; [|discriminate Hm].
  unfold self_pointing in Hp. destruct (pointing self) as [[py px]|]; [|discriminate Hp].
  cbn in Hm, Hp. injection Hm as <-. injection Hp as <-.
  run.
  eexists. split; [reflexivity|].
  split; [reflexivity|]. cbn -[Qplus Qminus Qmult Qdiv].
  constructor. repeat constructor; ring.
Qed.

Lemma centre_pixel_converts_to_pointing_witness :
  px_res (observation false) = Some (Scalar (59 # 1000))
  /\ self_pointing (observation false)
     = Ok {| value := Vec [100; 200]%Q; unit := u.arcsec |}
  /\ self_mid (observation false) = Ok {| value := Vec [512; 512]%Q; unit := u.pixel |}
  /\ exists q, unit_conversion (observation false) (pixels [512; 512]%Q) "arcsec" true
               = Ok (Some q)
               /\ same_quantity q {| value := Vec [100; 200]%Q; unit := u.arcsec |}.
Proof.
  repeat (split; [reflexivity|]).
  apply (centre_pixel_converts_to_pointing (observation false) (59 # 1000));
    reflexivity.
Defined.

Lemma round_trip_element (r x : Q) :
  ~ (r == 0)%Q -> recovered x (inject_Z (round_half_even (x * r / r))).
Proof.
  intros Hr.
  assert (E : (x * r / r == x)%Q) by (field; exact Hr).
  rewrite (round_half_even_comp _ _ E). split.
  - apply round_half_even_near.
  - apply round_half_even_whole.
Qed.

Lemma round_trip_elements (r : Q) (xs : list Q) :
  ~ (r == 0)%Q ->
  Forall2 recovered xs
    (map (fun x => inject_Z (round_half_even x))
         (map (fun x => x / r)%Q (map (fun x => x * r)%Q xs))).
Proof.
  intros Hr. induction xs as [|x xs IH]; cbn -[Qmult Qdiv]; constructor.
  - now apply round_trip_element.
  - exact IH.
Qed.

(** C8.  With [centre=False] and a non-zero pixel resolution, a coordinate
    in pixels converted to arcseconds and back to pixels comes back, element
    by element, within half a pixel, and unchanged where it is a whole
    number of pixels. *)
Theorem pixel_arcsec_round_trip (self : CRISP.t) (r : Q) (c : Quantity) :
  px_res self = Some (Scalar r) ->
  ~ (r == 0)%Q ->
  unit c = u.pixel ->
  exists a b,
    unit_conversion self (Some c) "arcsec" false = Ok (Some a)
    /\ unit_conversion self (Some a) "pix" false = Ok (Some b)
    /\ unit a = u.arcsec /\ unit b = u.pixel
    /\ arr_rel recovered (value c) (value b).
Proof.
  intros Hr Hnz Hc. destruct c as [v un]. cbn in Hc. subst un.
  rewrite unit_conversion_eq. unfold unit_conversion_body, self_px_res.
  rewrite Hr.
  destruct v as [x|xs]; run; eexists; eexists; (split; [reflexivity|]);
    rewrite unit_conversion_eq; unfold unit_conversion_body, self_px_res;
    rewrite Hr; run; (split; [reflexivity|]); repeat split; constructor.
  - now apply round_trip_element.
  - now apply round_trip_elements.
Qed.

Lemma pixel_arcsec_round_trip_witness :
  px_res (observation false) = Some (Scalar (59 # 1000))
  /\ ~ (59 # 1000 == 0)%Q
  /\ exists a b,
       unit_conversion (observation false)
         (Some {| value := Scalar 10; unit := u.pixel |}) "arcsec" false = Ok (Some a)
       /\ unit_conversion (observation false) (Some a) "pix" false = Ok (Some b)
       /\ unit a = u.arcsec /\ unit b = u.pixel
       /\ arr_rel recovered (Scalar 10) (value b).
Proof.
  split; [reflexivity|]. split; [discriminate|].
  apply (pixel_arcsec_round_trip (observation false) (59 # 1000)
           {| value := Scalar 10; unit := u.pixel |});
    [reflexivity | discriminate | reflexivity].
Defined.

(** C2.  For a coordinate in megametres, [unit_conversion] to arcseconds
    with [centre=True] is the composition of two conversions: to pixels
    with [centre=False], then to arcseconds with [centre=True].  What it
    returns is a quantity in arcseconds, never [None]; and it does return
    for a scalar or a pair on an accessor that has its resolution, pointing
    and centre pixel. *)
Theorem megameter_to_arcsec_two_step (self : CRISP.t) (c : Quantity) :
  unit c = u.megameter ->
  unit_conversion self (Some c) "arcsec" true
  = (inner ← unit_conversion self (Some c) "pix" false;
     unit_conversion self inner "arcsec" true)
  /\ (forall r, unit_conversion self (Some c) "arcsec" true = Ok r ->
                exists q, r = Some q /\ unit q = u.arcsec)
  /\ (forall r p m, px_res self = Some (Scalar r) ->
                    pointing self = Some p -> mid self = Some m ->
                    broadcasts_to_pair (value c) = true ->
                    exists q, unit_conversion self (Some c) "arcsec" true
                              = Ok (Some q)).
Proof.
  intros Hc.
  assert (Step : unit_conversion self (Some c) "arcsec" true
                 = (inner ← unit_conversion self (Some c) "pix" false;
                    unit_conversion self inner "arcsec" true)).
  { rewrite (unit_conversion_eq self (Some c) "arcsec" true).
    unfold unit_conversion_body. cbn [negb quantity mbind result_bind].
    rewrite Hc. reflexivity. }
  split; [exact Step|]. split.
  - intros r. rewrite Step. clear Step.
    destruct (unit_conversion self (Some c) "pix" false) as [inner|] eqn:Ei;
      cbn [mbind result_bind]; [|intros H; discriminate H].
    rewrite unit_conversion_eq in Ei.
    destruct (megameter_to_pix_unit self _ _ _ Hc Ei) as (q' & -> & Hq').
    rewrite unit_conversion_eq. unfold unit_conversion_body.
    cbn [negb quantity mbind result_bind]. rewrite Hq'. run.
    destruct (self_mid self) as [m|]; cbn [mbind result_bind];
      [|intros H; discriminate H].
    destruct (q_sub q' m) as [d|] eqn:Ed; cbn [mbind result_bind];
      [|intros H; discriminate H].
    destruct (self_px_res self) as [x|] eqn:Ex; cbn [mbind result_bind];
      [|intros H; discriminate H].
    destruct (q_mul d x) as [e|] eqn:Ee; cbn [mbind result_bind];
      [|intros H; discriminate H].
    destruct (self_pointing self) as [p|]; cbn [mbind result_bind];
      [|intros H; discriminate H].
    destruct (q_add e p) as [s|] eqn:Es; cbn [mbind result_bind];
      [|intros H; discriminate H].
    intros [= <-]. eexists; split; [reflexivity|].
    rewrite (q_add_unit _ _ _ Es), (q_mul_unit _ _ _ Ee), (q_sub_unit _ _ _ Ed), Hq',
      (self_px_res_unit _ _ Ex).
    reflexivity.
  - intros r [py px] [my mx] Hr Hp Hm Hv. rewrite Step. clear Step.
    destruct c as [v un]. cbn in Hc. subst un. cbn [value] in Hv.
    rewrite (unit_conversion_eq self _ "pix" false).
    unfold unit_conversion_body, self_px_res. rewrite Hr.
    destruct v as [x|[|x [|y [|z xs]]]]; try discriminate Hv;
      run;
      rewrite unit_conversion_eq;
      unfold unit_conversion_body, self_px_res, self_mid, self_pointing;
      rewrite Hr, Hp, Hm; run;
      eexists; reflexivity.
Qed.

Lemma megameter_to_arcsec_two_step_witness :
  unit (megametres [1; 2]%Q) = u.megameter
  /\ unit_conversion (observation false) (Some (megametres [1; 2]%Q)) "arcsec" true
     = (inner ← unit_conversion (observation false) (Some (megametres [1; 2]%Q))
                  "pix" false;
        unit_conversion (observation false) inner "arcsec" true)
  /\ exists q, unit_conversion (observation false) (Some (megametres [1; 2]%Q))
                 "arcsec" true = Ok (Some q).
Proof.
  split; [reflexivity|].
  destruct (megameter_to_arcsec_two_step (observation false) (megametres [1; 2]%Q)
              eq_refl) as (Step & _ & Returns).
  split; [exact Step|].
  apply (Returns (59 # 1000) (100, 200)%Q (512, 512)%Q); reflexivity.
Defined.

End Conversions.

(** ** Which calls can raise WiseGuyError *)

Lemma lib_ok {A} (a : A) : library_error (Ok a).
Proof. discriminate. Qed.

Lemma lib_raise {A} (e : exn) : e <> WiseGuyError -> library_error (@Raise A e).
Proof. intros H [= E]. now apply H. Qed.

Lemma lib_bind {A B} (m : result A) (k : A -> result B) :
  library_error m -> (forall a, library_error (k a)) -> library_error (m ≫= k).
Proof.
  intros Hm Hk. destruct m as [a|e]; cbn.
  - apply Hk.
  - intros [= ->]. now apply Hm.
Qed.

Lemma lib_try {A} (body handler : result A) (caught : exn) :
  library_error body -> library_error handler ->
  library_error (try_except body caught handler).
Proof.
  intros Hb Hh. destruct body as [a|e]; cbn; [discriminate|].
  destruct (decide (e = caught)); [exact Hh | exact Hb].
Qed.

Create HintDb wiseguy.

Ltac head_of t := match t with ?f _ => head_of f | _ => t end.

(** One step through a body: a statement that does not raise WiseGuyError,
    followed by the rest. *)
Ltac lib_step :=
  match goal with
  | |- library_error (Ok _) => apply lib_ok
  | |- library_error (Raise _) => apply lib_raise; discriminate
  | |- library_error (_ ≫= _) => apply lib_bind; [|intros ?]
  | |- library_error (try_except _ _ _) => apply lib_try
  | H : _ |- library_error _ => solve [apply H]
  | |- library_error _ => solve [auto 1 with wiseguy nocore]
  | |- library_error (if ?b then _ else _) => destruct b
  | |- library_error (match ?x with _ => _ end) => destruct x
  | |- library_error ?t => let h := head_of t in progress unfold h
  end.

Ltac lib := repeat lib_step.

Ltac as_library_error :=
  match goal with
  | |- ?m = Raise WiseGuyError -> False => change (library_error m)
  end.

Lemma lib_getitem_shape sh ix : library_error (getitem_shape sh ix).
Proof. revert sh. induction ix as [|i ix IH]; intros sh; cbn; lib. Qed.
#[export] Hint Resolve lib_getitem_shape : wiseguy.

Lemma lib_as_indices xs : library_error (CRISP.as_indices xs).
Proof. induction xs as [|x xs IH]; cbn; lib. Qed.
#[export] Hint Resolve lib_as_indices : wiseguy.

Lemma lib_subscript_data d pre xs : library_error (CRISP.subscript_data d pre xs).
Proof. lib. Qed.
#[export] Hint Resolve lib_subscript_data : wiseguy.

Lemma lib_unit_conversion_rec n self coord unit_to centre :
  library_error (CRISP.unit_conversion_rec n self coord unit_to centre).
Proof.
  revert coord unit_to centre. induction n as [|n IH]; intros coord unit_to centre.
  - cbn. lib.
  - rewrite unit_conversion_S. unfold CRISP.unit_conversion_body. lib.
Qed.

Lemma lib_unit_conversion self coord unit_to centre :
  library_error (CRISP.unit_conversion self coord unit_to centre).
Proof.
  with_strategy transparent [CRISP.unit_conversion]
    (unfold CRISP.unit_conversion; apply lib_unit_conversion_rec).
Qed.
#[export] Hint Resolve lib_unit_conversion : wiseguy.

Lemma lib_init_paths fs self files : library_error (CRISP.init_paths fs self files).
Proof. revert self. induction files as [|f files IH]; intros self; cbn; lib. Qed.
#[export] Hint Resolve lib_init_paths : wiseguy.

(** Construction never raises the module's own exception. *)
Lemma lib_init fs files : library_error (CRISP.__init__ fs files).
Proof. lib. Qed.

(** ** Intensity vectors *)

Section IntensityVector.
Import CRISP.

(** The tests of [line] in [intensity_vector], for a known spelling. *)
Ltac iv_dispatch :=
  change (lower "ca") with "ca"; change (lower "ha") with "ha";
  change (String.eqb "ca" "ha") with false; change (String.eqb "ha" "ca") with false;
  change (String.eqb "ca" "ca") with true; change (String.eqb "ha" "ha") with true;
  cbn [andb negb].

(** A coordinate with a component does not index: the component is refused
    before the array is looked at; on [None] the subscript itself fails. *)
Lemma subscript_data_component d pre x xs :
  exists e, subscript_data d pre (x :: xs) = Raise e /\ e <> WiseGuyError.
Proof. destruct d as [a|]; eexists; (split; [reflexivity|discriminate]). Qed.

Lemma subscript_data_Ok d pre xs v : subscript_data d pre xs = Ok v -> xs = [].
Proof.
  destruct xs as [|x xs]; [reflexivity|]. intros H.
  destruct (subscript_data_component d pre x xs) as (e & He & _).
  rewrite He in H. discriminate H.
Qed.

(** A call for one of the two lines that returns was given a coordinate
    without components. *)
Lemma intensity_vector_Ok self coord line pol centre r :
  lower line = "ca" \/ lower line = "ha" ->
  intensity_vector self coord line pol centre = Ok r ->
  exists px, unit_conversion self coord "pix" centre = Ok px /\ unpack px = Ok [].
Proof.
  intros Hline H. unfold intensity_vector in H.
  destruct (String.eqb line "ha" && pol); [discriminate H|].
  destruct (unit_conversion self coord "pix" centre) as [px|] eqn:Epx;
    cbn [mbind result_bind] in H; [|discriminate H].
  exists px. split; [reflexivity|].
  assert (Indexed : forall d pre,
             (xs ← unpack px; r ← subscript_data d pre xs; Ok (Some r)) = Ok r ->
             unpack px = Ok []).
  { intros d pre Hd. destruct (unpack px) as [xs|]; cbn [mbind result_bind] in Hd;
      [|discriminate Hd].
    destruct (subscript_data d pre xs) as [v|] eqn:Ev;
      cbn [mbind result_bind] in Hd; [|discriminate Hd].
    now rewrite (subscript_data_Ok _ _ _ _ Ev). }
  destruct Hline as [Hl | Hl]; rewrite Hl in H; iv_dispatch;
    cbn [negb] in H.
  - destruct pol; cbn [negb] in H;
      (destruct (ca self) as [c|]; cbn [getattr mbind result_bind] in H;
       [|discriminate H]);
      (destruct (data c) as [d|]; cbn [getattr mbind result_bind] in H;
       [|discriminate H]);
      destruct (Nat.eqb (ndim d) 4);
      first [discriminate H | exact (Indexed _ _ H)].
  - destruct (ha self) as [h|]; cbn [getattr mbind result_bind] in H;
      [|discriminate H].
    exact (Indexed _ _ H).
Qed.

(** C6.  [intensity_vector] raises WiseGuyError for line "ha" with
    [pol=True], whatever the coordinate and the arrays, and for line "ca"
    with [pol=True] on a 3-dimensional calcium array, once the coordinate has
    been converted.  For the lines "ca" and "ha" these are the only calls
    that raise it: a call that does has [pol=True] and either line "ha" or a
    calcium array that is not 4-dimensional.  The other combinations do not
    return a vector: the components of the converted coordinate are
    quantities, which the array refuses as indices.  A call that returns was
    given a coordinate without components, and a call with a coordinate that
    has one raises: WiseGuyError in the two cases above, another exception
    in every other. *)
Theorem intensity_vector_raises
    (self : CRISP.t) (coord : option Quantity) (centre : bool) :
  intensity_vector self coord "ha" true centre = Raise WiseGuyError
  /\ (forall c d px,
        ca self = Some c -> data c = Some d -> ndim d = 3%nat ->
        unit_conversion self coord "pix" centre = Ok px ->
        intensity_vector self coord "ca" true centre = Raise WiseGuyError)
  /\ (forall line pol,
        line = "ca" \/ line = "ha" ->
        intensity_vector self coord line pol centre = Raise WiseGuyError ->
        pol = true
        /\ (line = "ha"
            \/ exists c d, ca self = Some c /\ data c = Some d /\ ndim d <> 4%nat))
  /\ (forall line pol r,
        line = "ca" \/ line = "ha" ->
        intensity_vector self coord line pol centre = Ok r ->
        exists px, unit_conversion self coord "pix" centre = Ok px
                   /\ unpack px = Ok [])
  /\ (forall px x xs line pol,
        unit_conversion self coord "pix" centre = Ok px ->
        unpack px = Ok (x :: xs) ->
        line = "ca" \/ line = "ha" ->
        exists e,
          intensity_vector self coord line pol centre = Raise e
          /\ (e = WiseGuyError
              <-> pol = true
                  /\ (line = "ha"
                      \/ exists c d, ca self = Some c /\ data c = Some d
                                     /\ ndim d <> 4%nat))).
Proof.
  split; [reflexivity|]. split; [|split; [|split]].
  - intros c d px Hc Hd Hn Hpx. unfold intensity_vector.
    rewrite Hpx. cbn. rewrite Hc. cbn. rewrite Hd. cbn. rewrite Hn. reflexivity.
  - intros line pol Hline. unfold intensity_vector.
    destruct Hline as [-> | ->]; destruct pol; iv_dispatch; intros H.
    + split; [reflexivity|]. right.
      destruct (unit_conversion self coord "pix" centre) as [px|] eqn:Epx;
        cbn [mbind result_bind] in H;
        [|exfalso; injection H as ->; exact (lib_unit_conversion _ _ _ _ Epx)].
      destruct (ca self) as [c|]; cbn [getattr mbind result_bind] in H;
        [|discriminate H].
      destruct (data c) as [d|] eqn:Ed; cbn [getattr mbind result_bind] in H;
        [|discriminate H].
      exists c, d. split; [reflexivity|]. split; [exact Ed|].
      intros E. rewrite E in H. cbn [Nat.eqb] in H. revert H. as_library_error. lib.
    + exfalso. revert H. as_library_error. lib.
    + auto.
    + exfalso. revert H. as_library_error. lib.
  - intros line pol r Hline H.
    apply (intensity_vector_Ok self coord line pol centre r); [|exact H].
    destruct Hline as [-> | ->]; [left|right]; reflexivity.
  - intros px x xs line pol Hpx Hxs Hline. unfold intensity_vector.
    destruct Hline as [-> | ->]; destruct pol; iv_dispatch.
    + rewrite Hpx. cbn [mbind result_bind].
      destruct (ca self) as [c|]; cbn [getattr mbind result_bind].
      2:{ eexists. split; [reflexivity|]. split; [discriminate|].
          intros (_ & [E | (c & d & Hc & _)]); discriminate. }
      destruct (data c) as [d|] eqn:Ed; cbn [getattr mbind result_bind].
      2:{ eexists. split; [reflexivity|]. split; [discriminate|].
          intros (_ & [E | (c' & d & [= <-] & Hd & _)]); [discriminate E|].
          rewrite Ed in Hd. discriminate Hd. }
      destruct (Nat.eqb (ndim d) 4) eqn:En.
      * rewrite Hxs. cbn [mbind result_bind].
        destruct (subscript_data_component (Some d) [All; All] x xs) as (e & He & Hne).
        rewrite He. cbn [mbind result_bind]. exists e. split; [reflexivity|].
        split; [intros E; now destruct Hne|].
        intros (_ & [E | (c' & d' & [= <-] & Hd & Hn)]); [discriminate E|].
        rewrite Ed in Hd. injection Hd as <-. apply Nat.eqb_eq in En. now destruct Hn.
      * eexists. split; [reflexivity|]. split; [|reflexivity].
        intros _. split; [reflexivity|]. right. exists c, d.
        apply Nat.eqb_neq in En. auto.
    + rewrite Hpx. cbn [mbind result_bind].
      assert (Other : forall e : exn,
                 e <> WiseGuyError ->
                 e = WiseGuyError
                 <-> false = true
                     /\ ("ca" = "ha"
                         \/ exists c d, ca self = Some c /\ data c = Some d
                                        /\ ndim d <> 4%nat)).
      { intros e Hne. split; [intros E; now destruct Hne|]. intros [E _]. discriminate E. }
      destruct (ca self) as [c|]; cbn [getattr mbind result_bind];
        [|eexists; split; [reflexivity|apply Other; discriminate]].
      destruct (data c) as [d|]; cbn [getattr mbind result_bind];
        [|eexists; split; [reflexivity|apply Other; discriminate]].
      destruct (Nat.eqb (ndim d) 4); rewrite Hxs; cbn [mbind result_bind].
      * destruct (subscript_data_component (Some d) [Idx 0; All] x xs)
          as (e & He & Hne).
        rewrite He. exists e. split; [reflexivity|]. now apply Other.
      * destruct (subscript_data_component (Some d) [All] x xs) as (e & He & Hne).
        rewrite He. exists e. split; [reflexivity|]. now apply Other.
    + exists WiseGuyError. split; [reflexivity|]. split; [|reflexivity].
      intros _. auto.
    + rewrite Hpx. cbn [mbind result_bind].
      assert (Other : forall e : exn,
                 e <> WiseGuyError ->
                 e = WiseGuyError
                 <-> false = true
                     /\ ("ha" = "ha"
                         \/ exists c d, ca self = Some c /\ data c = Some d
                                        /\ ndim d <> 4%nat)).
      { intros e Hne. split; [intros E; now destruct Hne|]. intros [E _]. discriminate E. }
      destruct (ha self) as [h|]; cbn [getattr mbind result_bind];
        [|eexists; split; [reflexivity|apply Other; discriminate]].
      rewrite Hxs. cbn [mbind result_bind].
      destruct (subscript_data_component (data h) [All] x xs) as (e & He & Hne).
      rewrite He. exists e. split; [reflexivity|]. now apply Other.
Qed.

Lemma intensity_vector_raises_witness :
  intensity_vector (observation false) (pixels [512; 512]%Q) "ha" true false
  = Raise WiseGuyError
  /\ intensity_vector (observation false) (pixels [512; 512]%Q) "ca" true false
     = Raise WiseGuyError
  /\ (exists e, intensity_vector (observation false) (pixels [512; 512]%Q) "ca" false false
                = Raise e /\ e <> WiseGuyError)
  /\ (exists e, intensity_vector (observation true) (pixels [512; 512]%Q) "ca" true false
                = Raise e /\ e <> WiseGuyError)
  /\ (exists e, intensity_vector (observation false) (pixels [512; 512]%Q) "ha" false false
                = Raise e /\ e <> WiseGuyError)
  /\ intensity_vector (observation false) (pixels [512; 512]%Q) "ca" false false
     = Raise IndexError.
Proof.
  destruct (intensity_vector_raises (observation false) (pixels [512; 512]%Q) false)
    as (Guard & Shape & _ & _ & Raises).
  destruct (intensity_vector_raises (observation true) (pixels [512; 512]%Q) false)
    as (_ & _ & _ & _ & Raises').
  split; [exact Guard|]. split.
  { eapply (Shape _ (image [3; 1024; 1024]%nat) (pixels [512; 512]%Q));
      [reflexivity | reflexivity | reflexivity | vm_compute; reflexivity]. }
  split.
  { destruct (Raises (pixels [512; 512]%Q) 512%Q [512]%Q "ca" false)
      as (e & He & Hiff); [vm_compute; reflexivity | reflexivity | left; reflexivity |].
    exists e. split; [exact He|]. intros E. apply Hiff in E as [E _]. discriminate E. }
  split.
  { destruct (Raises' (pixels [512; 512]%Q) 512%Q [512]%Q "ca" true)
      as (e & He & Hiff); [vm_compute; reflexivity | reflexivity | left; reflexivity |].
    exists e. split; [exact He|]. intros E.
    apply Hiff in E as (_ & [E | (c & d & [= <-] & [= <-] & Hn)]); [discriminate E|].
    now apply Hn. }
  split.
  { destruct (Raises (pixels [512; 512]%Q) 512%Q [512]%Q "ha" false)
      as (e & He & Hiff); [vm_compute; reflexivity | reflexivity | right; reflexivity |].
    exists e. split; [exact He|]. intros E. apply Hiff in E as [E _]. discriminate E. }
  vm_compute. reflexivity.
Defined.

(** C9.  The guard on H-alpha with [pol=True] compares [line] with "ha" as
    written, the dispatch compares [line.lower()]: for any other spelling of
    "ha", a call with [pol=True] does what the call for "ha" with [pol=False]
    does, and never raises WiseGuyError.  It does not return H-alpha data
    either: [self.ha.data[:, *coord]] is indexed with the components of a
    quantity, so a call that returns was given a coordinate without
    components, and a call with a coordinate that has one raises another
    exception. *)
Theorem mixed_case_ha_bypasses_guard
    (self : CRISP.t) (coord : option Quantity) (line : string) (centre : bool) :
  line <> "ha" -> lower line = "ha" ->
  intensity_vector self coord line true centre
  = intensity_vector self coord "ha" false centre
  /\ library_error (intensity_vector self coord line true centre)
  /\ (forall r,
        intensity_vector self coord line true centre = Ok r ->
        exists px, unit_conversion self coord "pix" centre = Ok px
                   /\ unpack px = Ok [])
  /\ (forall px x xs,
        unit_conversion self coord "pix" centre = Ok px ->
        unpack px = Ok (x :: xs) ->
        exists e, intensity_vector self coord line true centre = Raise e
                  /\ e <> WiseGuyError).
Proof.
  intros Hne Hlow.
  assert (Same : intensity_vector self coord line true centre
                 = intensity_vector self coord "ha" false centre).
  { unfold intensity_vector. apply String.eqb_neq in Hne. rewrite Hne, Hlow.
    iv_dispatch. reflexivity. }
  assert (Lib : library_error (intensity_vector self coord "ha" false centre)).
  { unfold intensity_vector. iv_dispatch. lib. }
  split; [exact Same|]. rewrite Same. split; [exact Lib|]. split.
  - intros r. apply intensity_vector_Ok. right. reflexivity.
  - intros px x xs Hpx Hxs.
    destruct (intensity_vector self coord "ha" false centre) as [r|e] eqn:E.
    + destruct (intensity_vector_Ok self coord "ha" false centre r) as (px' & Hpx' & Hxs');
        [right; reflexivity | exact E |].
      rewrite Hpx in Hpx'. injection Hpx' as <-. rewrite Hxs in Hxs'. discriminate Hxs'.
    + exists e. split; [reflexivity|]. intros ->. now apply Lib.
Qed.

Lemma mixed_case_ha_bypasses_guard_witness :
  "Ha" <> "ha" /\ lower "Ha" = "ha"
  /\ intensity_vector (observation false) (pixels [512; 512]%Q) "Ha" true false
     = intensity_vector (observation false) (pixels [512; 512]%Q) "ha" false false
  /\ (exists e, intensity_vector (observation false) (pixels [512; 512]%Q) "Ha" true false
                = Raise e /\ e <> WiseGuyError)
  /\ intensity_vector (observation false) (pixels [512; 512]%Q) "Ha" true false
     = Raise IndexError.
Proof.
  split; [discriminate|]. split; [reflexivity|].
  destruct (mixed_case_ha_bypasses_guard (observation false) (pixels [512; 512]%Q)
              "Ha" false) as (Same & _ & _ & Raises); [discriminate | reflexivity |].
  split; [exact Same|]. split.
  - apply (Raises (pixels [512; 512]%Q) 512%Q [512]%Q); [vm_compute; reflexivity|reflexivity].
  - vm_compute. reflexivity.
Defined.

End IntensityVector.

(** ** Ingestion *)

Section IngestionFacts.
Import CRISP.

Lemma seq_index_0 {A} (l : list A) (x : A) : l !! 0%nat = Some x -> seq_index l 0 = Ok x.
Proof. destruct l as [|y l]; [discriminate|]. intros [= ->]. reflexivity. Qed.

Lemma seq_index_1_None {A} (l : list A) (x : A) :
  l !! 0%nat = Some x -> l !! 1%nat = None -> seq_index l 1 = Raise IndexError.
Proof. destruct l as [|y [|z l]]; try discriminate. reflexivity. Qed.

Lemma seq_index_1 {A} (l : list A) (x : A) : l !! 1%nat = Some x -> seq_index l 1 = Ok x.
Proof.
  destruct l as [|y [|z l]]; try discriminate. intros [= ->].
  unfold seq_index, in_range, norm_index. cbn [length].
  replace ((- Z.of_nat (S (S (length l))) <=? 1)%Z && (1 <? Z.of_nat (S (S (length l))))%Z)
    with true
    by (symmetry; apply andb_true_iff; split; [apply Z.leb_le | apply Z.ltb_lt]; lia).
  reflexivity.
Qed.

(** Without [spect_pos] in the header, the wavelengths are those of the
    [except KeyError:] block. *)
Lemma fits_wvls_fallback fs path (h : HDU) :
  hdu_header h !! "spect_pos" = None ->
  fits_wvls fs path h
  = (hdus ← fits_open fs path; ext ← seq_index hdus 1; data_quantity (hdu_data ext)).
Proof. intros H. unfold fits_wvls, subscript. rewrite H. reflexivity. Qed.

(** A FITS file reads its wavelengths before anything is stored: without
    [spect_pos], whatever the fallback lookup raises ends the body, in the
    single-file branches and in the loop alike. *)
Lemma fits_step_without_wavelengths fs path hdus (h : HDU) self e :
  str_in ".fits" path = true ->
  fs path = Some (FitsFile hdus) ->
  hdus !! 0%nat = Some h ->
  hdu_header h !! "spect_pos" = None ->
  (ext ← seq_index hdus 1; data_quantity (hdu_data ext)) = Raise e ->
  init_str fs self path = Raise e /\ init_step fs self path = Raise e.
Proof.
  intros Hfits Hfs H0 Hspect He.
  unfold init_str, init_step, file_kind. rewrite Hfits.
  split; destruct (str_in "ca" path);
    unfold load_fits_ca, load_fits_ha, load_fits_ha_listed, fits_open;
    rewrite Hfs; cbn [mbind result_bind];
    rewrite (seq_index_0 _ _ H0); cbn [mbind result_bind];
    rewrite (fits_wvls_fallback _ _ _ Hspect); unfold fits_open;
    rewrite Hfs; cbn [mbind result_bind]; rewrite He; reflexivity.
Qed.

Lemma init_paths_app fs pre rest : forall self,
  init_paths fs self (pre ++ rest)
  = (self' ← init_paths fs self pre; init_paths fs self' rest).
Proof.
  induction pre as [|f pre IH]; intros self; cbn [app init_paths]; [reflexivity|].
  destruct (init_step fs self f) as [s|e]; cbn [mbind result_bind]; [apply IH|reflexivity].
Qed.

(** A list that holds a file on which the loop body raises does not load. *)
Lemma init_paths_member fs path files :
  (forall self, exists e, init_step fs self path = Raise e) ->
  path ∈ files -> forall self, fails (init_paths fs self files).
Proof.
  intros Hstep. induction files as [|f files IH]; intros Hin self.
  - now apply elem_of_nil in Hin.
  - cbn [init_paths]. destruct (init_step fs self f) as [s|e] eqn:E;
      cbn [mbind result_bind]; [|now exists e].
    apply elem_of_cons in Hin as [<- | Hin]; [|now apply IH].
    destruct (Hstep self) as [e He]. rewrite He in E. discriminate E.
Qed.

(** C4, as amended.  For a FITS file whose primary header has no
    [spect_pos], construction fails with the error of the fallback lookup:
    IndexError when extension 1 does not exist, TypeError when it exists
    without data.  This holds for the file given alone and for the file in a
    list whose earlier files load; a list that holds the file anywhere does
    not load.  No construction, of one file or of a list, raises
    WiseGuyError. *)
Theorem fits_without_wavelengths_fails
    (fs : filesystem) (path : string) (hdus : list HDU) (h : HDU) :
  str_in ".fits" path = true ->
  fs path = Some (FitsFile hdus) ->
  hdus !! 0%nat = Some h ->
  hdu_header h !! "spect_pos" = None ->
  (hdus !! 1%nat = None ->
   __init__ fs (Str path) = Raise IndexError
   /\ forall pre rest self,
        __init__ fs (Paths pre) = Ok self ->
        __init__ fs (Paths (pre ++ path :: rest)) = Raise IndexError)
  /\ (forall ext, hdus !! 1%nat = Some ext -> hdu_data ext = None ->
      __init__ fs (Str path) = Raise TypeError
      /\ forall pre rest self,
           __init__ fs (Paths pre) = Ok self ->
           __init__ fs (Paths (pre ++ path :: rest)) = Raise TypeError)
  /\ (hdus !! 1%nat = None
      \/ (exists ext, hdus !! 1%nat = Some ext /\ hdu_data ext = None) ->
      forall files, path ∈ files -> fails (__init__ fs (Paths files)))
  /\ (forall files, library_error (__init__ fs files)).
Proof.
  intros Hfits Hfs H0 Hspect.
  assert (Step : forall e,
             (ext ← seq_index hdus 1; data_quantity (hdu_data ext)) = Raise e ->
             __init__ fs (Str path) = Raise e
             /\ forall pre rest self,
                  __init__ fs (Paths pre) = Ok self ->
                  __init__ fs (Paths (pre ++ path :: rest)) = Raise e).
  { intros e He. split.
    - apply (fits_step_without_wavelengths fs path hdus h new e); assumption.
    - intros pre rest self Hpre. cbn [__init__] in *.
      rewrite init_paths_app, Hpre. cbn [mbind result_bind init_paths].
      destruct (fits_step_without_wavelengths fs path hdus h self e) as [_ ->];
        try assumption.
      reflexivity. }
  assert (Missing : hdus !! 1%nat = None ->
                    (ext ← seq_index hdus 1; data_quantity (hdu_data ext))
                    = Raise IndexError).
  { intros H1. rewrite (seq_index_1_None _ _ H0 H1). reflexivity. }
  assert (Empty : forall ext, hdus !! 1%nat = Some ext -> hdu_data ext = None ->
                  (ext ← seq_index hdus 1; data_quantity (hdu_data ext))
                  = Raise TypeError).
  { intros ext H1 Hd. rewrite (seq_index_1 _ _ H1). cbn [mbind result_bind].
    rewrite Hd. reflexivity. }
  split; [|split; [|split]].
  - intros H1. apply Step, Missing, H1.
  - intros ext H1 Hd. apply Step, (Empty ext); assumption.
  - intros Hext files Hin. cbn [__init__].
    apply (init_paths_member fs path); [|exact Hin].
    intros self.
    destruct Hext as [H1 | (ext & H1 & Hd)].
    + exists IndexError.
      apply (fits_step_without_wavelengths fs path hdus h self); auto.
    + exists TypeError.
      apply (fits_step_without_wavelengths fs path hdus h self); eauto.
  - apply lib_init.
Qed.

Lemma fits_without_wavelengths_fails_witness :
  (str_in ".fits" "ca_8542.fits" = true
   /\ disk "ca_8542.fits" = Some (FitsFile [primary])
   /\ hdu_header primary !! "spect_pos" = None
   /\ __init__ disk (Str "ca_8542.fits") = Raise IndexError
   /\ __init__ disk (Paths ["halpha.fits"]) = Ok halpha_listed
   /\ __init__ disk (Paths ["halpha.fits"; "ca_8542.fits"; "halpha.h5"])
      = Raise IndexError)
  /\ (disk "ca_8542_nodata.fits" = Some (FitsFile [primary; empty_ext])
      /\ hdu_data empty_ext = None
      /\ __init__ disk (Str "ca_8542_nodata.fits") = Raise TypeError
      /\ __init__ disk (Paths ["halpha.fits"; "ca_8542_nodata.fits"]) = Raise TypeError).
Proof.
  assert (Loads : __init__ disk (Paths ["halpha.fits"]) = Ok halpha_listed)
    by (vm_compute; reflexivity).
  destruct (fits_without_wavelengths_fails disk "ca_8542.fits" [primary] primary
              eq_refl eq_refl eq_refl eq_refl) as (Missing & _).
  destruct (fits_without_wavelengths_fails disk "ca_8542_nodata.fits"
              [primary; empty_ext] primary eq_refl eq_refl eq_refl eq_refl)
    as (_ & Empty & _).
  destruct (Missing eq_refl) as [Alone Listed].
  destruct (Empty empty_ext eq_refl eq_refl) as [Alone' Listed'].
  split.
  - do 3 (split; [reflexivity|]). split; [exact Alone|]. split; [exact Loads|].
    exact (Listed ["halpha.fits"] ["halpha.h5"] halpha_listed Loads).
  - do 2 (split; [reflexivity|]). split; [exact Alone'|].
    exact (Listed' ["halpha.fits"] [] halpha_listed Loads).
Defined.

(** C4 as stated fails: a calcium FITS file with no [spect_pos] and no
    extension 1 makes construction raise IndexError, not WiseGuyError. *)
Lemma fits_without_wavelengths_not_wiseguy :
  str_in ".fits" "ca_8542.fits" = true
  /\ disk "ca_8542.fits" = Some (FitsFile [primary])
  /\ hdu_header primary !! "spect_pos" = None
  /\ [primary] !! 1%nat = None
  /\ __init__ disk (Str "ca_8542.fits") = Raise IndexError
  /\ __init__ disk (Str "ca_8542.fits") <> Raise WiseGuyError.
Proof. repeat (split; [reflexivity|]). vm_compute. discriminate. Qed.

(** The test [elif ".h5" or ".hdf5" in f] holds for every name. *)
Lemma file_kind_spec (f : string) :
  file_kind f = if str_in ".fits" f then FitsKind else H5Kind.
Proof. unfold file_kind. destruct (str_in ".fits" f); reflexivity. Qed.

(** C5.  The branch taken depends on ".fits" alone: a name that contains it
    takes the FITS branch, every other name takes the HDF5 branch, and no
    name is left to neither.  The name "halpha.dat" has none of the three
    extensions; it is read as an HDF5 file and loaded as the H-alpha line,
    and a name of the same kind with no file behind it fails in the HDF5
    reader. *)
Theorem hdf5_branch_taken_without_extension :
  (forall f, file_kind f = if str_in ".fits" f then FitsKind else H5Kind)
  /\ str_in ".fits" "halpha.dat" = false
  /\ str_in ".h5" "halpha.dat" = false
  /\ str_in ".hdf5" "halpha.dat" = false
  /\ file_kind "halpha.dat" = H5Kind
  /\ __init__ disk (Str "halpha.dat") = Ok halpha_dat
  /\ dict_keys halpha_dat
     = ["mm_sun"; "ang_sun"; "ha"; "ha_wvls"; "px_res"; "pointing"; "mid"]
  /\ __init__ disk (Str "notes.txt") = Raise OSError.
Proof.
  split; [exact file_kind_spec|].
  repeat (split; [vm_compute; reflexivity|]). vm_compute; reflexivity.
Qed.

(** The centre pixel that the H-alpha HDF5 branch computes (line 84): the
    last entry of [dimensions] is taken as it is. *)
Lemma h5_mid_ha_spec (c : cube) (l : list Q) (a b : Q) :
  header c !! "dimensions" = Some (PList l) ->
  seq_index l (-2) = Ok a -> seq_index l (-1) = Ok b ->
  h5_mid_ha c = Ok (floordiv2 a, b) /\ h5_mid_ca c = Ok (floordiv2 a, floordiv2 b).
Proof.
  intros Hd Ha Hb. unfold h5_mid_ha, h5_mid_ca, subscript. rewrite Hd.
  cbn [mbind result_bind val_index]. rewrite Ha, Hb. split; reflexivity.
Qed.

(** C3.  For a single HDF5 file, with [a] and [b] the last two entries of the
    header key [dimensions], the centre pixel is [(a // 2, b // 2)] when the
    file is read as the calcium line, and [(a // 2, b)] when it is read as
    the H-alpha line: there the last entry is not halved. *)
Theorem h5_halpha_centre_pixel_not_halved
    (fs : filesystem) (path : string) (f : h5file)
    (hd : gmap string pyval) (rest : list (gmap string pyval))
    (l : list Q) (a b : Q) (self : CRISP.t) :
  str_in ".fits" path = false ->
  fs path = Some (H5File f) ->
  h5_header f = Some (hd :: rest) ->
  hd !! "dimensions" = Some (PList l) ->
  seq_index l (-2) = Ok a ->
  seq_index l (-1) = Ok b ->
  __init__ fs (Str path) = Ok self ->
  mid self = Some (floordiv2 a, if str_in "ca" path then floordiv2 b else b).
Proof.
  intros Hfits Hfs Hh Hd Ha Hb Hinit.
  unfold __init__, init_str in Hinit. rewrite file_kind_spec, Hfits in Hinit.
  assert (Hc : forall c, h5_cube f = Ok c -> header c !! "dimensions" = Some (PList l)).
  { intros c. unfold h5_cube. destruct (h5_data f); [|discriminate].
    rewrite Hh. cbn. now intros [= <-]. }
  destruct (str_in "ca" path); unfold load_h5_ca, load_h5_ha, h5py_File in Hinit;
    rewrite Hfs in Hinit; cbn [mbind result_bind] in Hinit;
    (destruct (h5_cube f) as [c|] eqn:Ec; cbn [mbind result_bind] in Hinit;
     [|discriminate Hinit]);
    (destruct (h5_wvls c); cbn [mbind result_bind] in Hinit; [|discriminate Hinit]);
    (destruct (h5_px_res c); cbn [mbind result_bind] in Hinit; [|discriminate Hinit]);
    (destruct (h5_pointing c); cbn [mbind result_bind] in Hinit; [|discriminate Hinit]);
    destruct (h5_mid_ha_spec c l a b (Hc c eq_refl) Ha Hb) as [Eha Eca];
    rewrite ?Eha, ?Eca in Hinit; cbn [mbind result_bind] in Hinit;
    injection Hinit as <-; reflexivity.
Qed.

Lemma h5_halpha_centre_pixel_not_halved_witness :
  str_in ".fits" "halpha.h5" = false
  /\ str_in "ca" "halpha.h5" = false
  /\ yaml_header !! "dimensions" = Some (PList [3; 1000; 1000]%Q)
  /\ __init__ disk (Str "halpha.h5") = Ok halpha_h5
  /\ mid halpha_h5 = Some (500, 1000)%Q
  /\ __init__ disk (Str "ca_8542.h5") = Ok calcium_h5
  /\ mid calcium_h5 = Some (500, 500)%Q.
Proof.
  do 4 (split; [vm_compute; reflexivity|]).
  split; [|split; [vm_compute; reflexivity|]].
  - etransitivity;
      [apply (h5_halpha_centre_pixel_not_halved disk "halpha.h5" h5obs yaml_header []
                [3; 1000; 1000]%Q 1000 1000 halpha_h5)|];
      vm_compute; reflexivity.
  - etransitivity;
      [apply (h5_halpha_centre_pixel_not_halved disk "ca_8542.h5" h5obs yaml_header []
                [3; 1000; 1000]%Q 1000 1000 calcium_h5)|];
      vm_compute; reflexivity.
Defined.

End IngestionFacts.

(** ** Description *)

Section Description.
Import CRISP.

Lemma in_dict_ha (self : CRISP.t) :
  in_dict "ha" self = match ha self with Some _ => true | None => false end.
Proof.
  destruct self as [c cw h hw r p m].
  destruct c, cw, h, hw, r, p, m; reflexivity.
Qed.

(** The chain tests only whether "ha" is a key: the first test is
    ["ha" in self.__dict__], the second its negation, and the third is never
    reached. *)
Lemma presence_branch_spec (self : CRISP.t) :
  presence_branch self
  = match ha self with Some _ => Some BothLines | None => Some CaOnly end.
Proof.
  unfold presence_branch. rewrite in_dict_ha.
  change (truthy "ca") with true. destruct (ha self); reflexivity.
Qed.

(** C1.  The branch of [__str__] is chosen by the presence of "ha" alone: the
    both-lines branch whenever "ha" is present, the calcium-only branch
    whenever it is absent, the H-alpha-only branch never.  An accessor built
    from one H-alpha file runs the both-lines branch and raises
    AttributeError on [self.ca]; an accessor with neither line runs the
    calcium-only branch and raises the same; an accessor with calcium alone
    is described by the calcium-only branch. *)
Theorem str_branch_ignores_calcium :
  (forall self,
      presence_branch self
      = match ha self with Some _ => Some BothLines | None => Some CaOnly end)
  /\ __init__ disk (Str "halpha.fits") = Ok halpha_fits
  /\ in_dict "ca" halpha_fits = false
  /\ in_dict "ha" halpha_fits = true
  /\ presence_branch halpha_fits = Some BothLines
  /\ __str__ halpha_fits = Raise AttributeError
  /\ __init__ disk (Paths []) = Ok new
  /\ in_dict "ca" new = false
  /\ in_dict "ha" new = false
  /\ presence_branch new = Some CaOnly
  /\ __str__ new = Raise AttributeError
  /\ in_dict "ca" calcium_h5 = true
  /\ in_dict "ha" calcium_h5 = false
  /\ presence_branch calcium_h5 = Some CaOnly.
Proof.
  split; [exact presence_branch_spec|].
  repeat (split; [vm_compute; reflexivity|]). vm_compute; reflexivity.
Qed.

End Description.

(** ** Slicing an Inversion *)

Section Inversion.
Import InversionSlicingMixin.

(** C10.  Whatever the object and the index expression, [_slice] raises, and
    so does [__getitem__]: the body is the four array slices and the slice of
    the world-coordinate system, each of which may raise, followed by the
    NameError of reading [z]; no mapping is ever returned. *)
Theorem inversion_slice_always_fails
    (W T : Type) (self : InversionSlicingMixin.t W T) (item : list index) :
  fails (_slice self item)
  /\ fails (__getitem__ self item)
  /\ _slice self item
     = (a ← getattr (ne self); _ ← getitem a item;
        a ← getattr (temp self); _ ← getitem a item;
        a ← getattr (vel self); _ ← getitem a item;
        a ← getattr (err self); _ ← getitem a item;
        _ ← _slice_wcs self item;
        Raise NameError).
Proof.
  assert (E : _slice self item
     = (a ← getattr (ne self); _ ← getitem a item;
        a ← getattr (temp self); _ ← getitem a item;
        a ← getattr (vel self); _ ← getitem a item;
        a ← getattr (err self); _ ← getitem a item;
        _ ← _slice_wcs self item;
        Raise NameError)).
  { unfold _slice.
    repeat match goal with
           | |- context [getattr ?f] =>
               destruct (getattr f); cbn [mbind result_bind]; [|reflexivity]
           | |- context [getitem ?a ?i] =>
               destruct (getitem a i); cbn [mbind result_bind]; [|reflexivity]
           | |- context [set_filename _ _ _] =>
               unfold set_filename at 1; rewrite lookup_insert_eq;
               cbn [mbind result_bind]
           | |- context [_slice_wcs ?s ?i] =>
               destruct (_slice_wcs s i); cbn [mbind result_bind]; [|reflexivity]
           end.
    reflexivity. }
  assert (F : fails (_slice self item)).
  { rewrite E. unfold fails.
    repeat match goal with
           | |- context [getattr ?f] =>
               destruct (getattr f); cbn [mbind result_bind]; [|eexists; reflexivity]
           | |- context [getitem ?a ?i] =>
               destruct (getitem a i); cbn [mbind result_bind]; [|eexists; reflexivity]
           | |- context [_slice_wcs ?s ?i] =>
               destruct (_slice_wcs s i); cbn [mbind result_bind];
               [|eexists; reflexivity]
           end.
    eexists; reflexivity. }
  split; [exact F|]. split; [|exact E].
  unfold __getitem__. destruct F as [e ->]. exists e. reflexivity.
Qed.

End Inversion.

(** * Further properties *)

(** ** Unit conversion: composition, units and errors *)

Section MoreConversions.
Import CRISP.

Ltac step_conversion :=
  rewrite unit_conversion_eq; unfold unit_conversion_body, self_px_res;
  try match goal with H : px_res _ = Some _ |- _ => rewrite H end; run.

Ltac numerically_equal :=
  match goal with
  | |- Forall2 Qeq _ _ =>
      match goal with
      | xs : list Q |- _ =>
          induction xs; cbn -[Qplus Qminus Qmult Qdiv]; constructor;
          [first [reflexivity | field] | assumption]
      end
  | |- Qeq _ _ => first [reflexivity | field]
  end.

(** With [centre=False], conversions to arcseconds and megametres compose: a
    coordinate in pixels, arcseconds or megametres converted to one of the
    two and then to the other, or to the same again, is numerically the
    direct conversion.  In particular arcsec -> Mm -> arcsec and
    Mm -> arcsec -> Mm give the coordinate back. *)
Theorem flat_conversions_compose
    (self : CRISP.t) (r : Q) (c : Quantity) (via target : string) :
  (unit c = u.pixel -> px_res self = Some (Scalar r)) ->
  unit c = u.pixel \/ unit c = u.arcsec \/ unit c = u.megameter ->
  via = "arcsec" \/ via = "Mm" ->
  target = "arcsec" \/ target = "Mm" ->
  exists a b d,
    unit_conversion self (Some c) via false = Ok (Some a)
    /\ unit_conversion self (Some a) target false = Ok (Some b)
    /\ unit_conversion self (Some c) target false = Ok (Some d)
    /\ same_quantity b d.
Proof.
  intros Hr Hc Hvia Htarget. destruct c as [v un]. cbn [unit] in Hr, Hc.
  assert (Hr' : un = u.pixel -> px_res self = Some (Scalar r)) by exact Hr.
  clear Hr.
  destruct Hc as [-> | [-> | ->]];
    first [specialize (Hr' eq_refl) | clear Hr'];
    destruct Hvia as [-> | ->]; destruct Htarget as [-> | ->];
    destruct v as [x|xs];
    (eexists; eexists; eexists;
     split; [step_conversion; reflexivity|];
     split; [step_conversion; reflexivity|];
     split; [step_conversion; reflexivity|];
     split; [reflexivity|]; cbn [value]).
  all: constructor; numerically_equal.
Qed.

Lemma flat_conversions_compose_witness :
  px_res (observation false) = Some (Scalar (59 # 1000))
  /\ exists a b d,
       unit_conversion (observation false) (Some (megametres [1; 2]%Q)) "arcsec" false
       = Ok (Some a)
       /\ unit_conversion (observation false) (Some a) "Mm" false = Ok (Some b)
       /\ unit_conversion (observation false) (Some (megametres [1; 2]%Q)) "Mm" false
          = Ok (Some d)
       /\ same_quantity b d.
Proof.
  split; [reflexivity|].
  apply (flat_conversions_compose (observation false) (59 # 1000)
           (megametres [1; 2]%Q) "arcsec" "Mm");
    [intros _; reflexivity | right; right; reflexivity | left; reflexivity
     | right; reflexivity].
Defined.

Lemma self_pointing_unit self p : self_pointing self = Ok p -> unit p = u.arcsec.
Proof.
  unfold self_pointing. destruct (pointing self); cbn; [|discriminate]. now intros [= <-].
Qed.

Lemma self_mid_unit self m : self_mid self = Ok m -> unit m = u.pixel.
Proof.
  unfold self_mid. destruct (mid self); cbn; [|discriminate]. now intros [= <-].
Qed.

(** Split a hypothesis [m ≫= k = Ok r] into the steps that succeeded. *)
Ltac bind_inv H :=
  repeat match type of H with
         | (?m ≫= _) = Ok _ =>
             let E := fresh "E" in
             destruct m eqn:E; cbn [mbind result_bind] in H; [|discriminate H]
         end.

(** Rewrite the unit of every intermediate result with the unit of its
    operands. *)
Ltac units :=
  repeat match goal with
         | E : q_mul _ _ = Ok ?q |- context [unit ?q] => rewrite (q_mul_unit _ _ _ E)
         | E : q_div _ _ = Ok ?q |- context [unit ?q] => rewrite (q_div_unit _ _ _ E)
         | E : q_add _ _ = Ok ?q |- context [unit ?q] => rewrite (q_add_unit _ _ _ E)
         | E : q_sub _ _ = Ok ?q |- context [unit ?q] => rewrite (q_sub_unit _ _ _ E)
         | E : self_px_res _ = Ok ?q |- context [unit ?q] =>
             rewrite (self_px_res_unit _ _ E)
         | E : self_pointing _ = Ok ?q |- context [unit ?q] =>
             rewrite (self_pointing_unit _ _ E)
         | E : self_mid _ = Ok ?q |- context [unit ?q] => rewrite (self_mid_unit _ _ E)
         | E : unit ?c = _ |- context [unit ?c] => rewrite E
         end.

Ltac case_unit c H :=
  let E := fresh "Eu" in
  destruct (u.eqb (unit c) _) eqn:E in H; [apply u_eqb_eq in E|clear E].

Lemma flat_result_unit self coord unit_to q :
  unit_conversion self coord unit_to false = Ok (Some q) ->
  named_unit unit_to false = Some (unit q).
Proof.
  intros H. rewrite unit_conversion_eq in H. unfold unit_conversion_body in H.
  cbn [negb] in H. unfold named_unit.
  destruct (String.eqb unit_to "pix").
  { destruct coord as [c|]; cbn [quantity mbind result_bind] in H; [|discriminate H].
    case_unit c H; [injection H as <-; now rewrite Eu|].
    case_unit c H.
    { bind_inv H. injection H as <-. cbn [np_round unit]. units. reflexivity. }
    case_unit c H; [|discriminate H].
    bind_inv H. injection H as <-. cbn [np_round unit]. units. reflexivity. }
  destruct (String.eqb unit_to "arcsec").
  { destruct coord as [c|]; cbn [quantity mbind result_bind] in H; [|discriminate H].
    case_unit c H.
    { bind_inv H. injection H as <-. units. reflexivity. }
    case_unit c H; [injection H as <-; now rewrite Eu|].
    case_unit c H; [|discriminate H].
    bind_inv H. injection H as <-. units. reflexivity. }
  destruct (String.eqb unit_to "Mm"); [|discriminate H].
  destruct coord as [c|]; cbn [quantity mbind result_bind] in H; [|discriminate H].
  case_unit c H.
  { bind_inv H. injection H as <-. units. reflexivity. }
  case_unit c H.
  { bind_inv H. injection H as <-. units. reflexivity. }
  case_unit c H; [|discriminate H].
  injection H as <-. now rewrite Eu.
Qed.

Lemma flat_megameter_None self coord :
  unit_conversion self coord "megameter" false = Ok None.
Proof. rewrite unit_conversion_eq. reflexivity. Qed.

(** Whatever quantity [unit_conversion] returns is in the unit that the
    target name stands for; for a name that stands for none with the given
    [centre] ("Mm" with [centre=True], "megameter" with [centre=False], any
    other string) no quantity is returned. *)
Theorem result_unit_is_target_unit
    (self : CRISP.t) (coord : option Quantity) (unit_to : string) (centre : bool)
    (q : Quantity) :
  unit_conversion self coord unit_to centre = Ok (Some q) ->
  named_unit unit_to centre = Some (unit q).
Proof.
  destruct centre; [|apply flat_result_unit].
  intros H. rewrite unit_conversion_eq in H. unfold unit_conversion_body in H.
  cbn [negb] in H. unfold named_unit.
  destruct (String.eqb unit_to "pix").
  { destruct coord as [c|]; cbn [quantity mbind result_bind] in H; [|discriminate H].
    case_unit c H; [injection H as <-; now rewrite Eu|].
    case_unit c H.
    { bind_inv H. injection H as <-. units. reflexivity. }
    case_unit c H; [|discriminate H].
    apply flat_result_unit in H. exact H. }
  destruct (String.eqb unit_to "arcsec").
  { destruct coord as [c|]; cbn [quantity mbind result_bind] in H; [|discriminate H].
    case_unit c H.
    { bind_inv H. injection H as <-. units. reflexivity. }
    case_unit c H.
    { bind_inv H. injection H as <-. units. reflexivity. }
    case_unit c H; [|discriminate H].
    destruct (unit_conversion self (Some c) "pix" false) as [[inner|]|] eqn:Ei;
      cbn [mbind result_bind] in H.
    - apply flat_result_unit in Ei. injection Ei as Ei.
      rewrite unit_conversion_eq in H. unfold unit_conversion_body in H.
      cbn [negb quantity mbind result_bind] in H. rewrite <- Ei in H.
      change (String.eqb "arcsec" "pix") with false in H.
      change (String.eqb "arcsec" "arcsec") with true in H.
      change (u.eqb u.pixel u.pixel) with true in H. cbv iota in H.
      bind_inv H. injection H as <-. units. rewrite <- Ei. reflexivity.
    - rewrite unit_conversion_eq in H. discriminate H.
    - discriminate H. }
  destruct (String.eqb unit_to "megameter"); [|discriminate H].
  destruct coord as [c|]; cbn [quantity mbind result_bind] in H; [|discriminate H].
  case_unit c H; [discriminate H|].
  case_unit c H.
  { destruct (unit_conversion self (Some c) "pix" true) as [inner|]; cbn in H;
      [|discriminate H].
    rewrite flat_megameter_None in H. discriminate H. }
  case_unit c H; [|discriminate H].
  injection H as <-. now rewrite Eu.
Qed.

Lemma result_unit_is_target_unit_witness :
  unit_conversion (observation false)
    (Some {| value := Scalar 10; unit := u.pixel |}) "arcsec" false
  = Ok (Some {| value := Scalar (590 # 1000); unit := u.arcsec |})
  /\ named_unit "arcsec" false = Some u.arcsec.
Proof.
  split; [vm_compute; reflexivity|].
  apply (result_unit_is_target_unit (observation false)
           (Some {| value := Scalar 10; unit := u.pixel |}) "arcsec" false
           {| value := Scalar (590 # 1000); unit := u.arcsec |}).
  vm_compute; reflexivity.
Defined.

(** With [centre=True] the target "megameter" converts nothing: the only
    quantity ever returned is a megametre coordinate, unchanged; a coordinate
    in pixels raises NameError, and a coordinate in arcseconds, once
    converted to pixels, gives [None]. *)
Theorem centred_megameter_never_converts (self : CRISP.t) (coord : option Quantity) :
  (forall q, unit_conversion self coord "megameter" true = Ok (Some q) ->
             coord = Some q /\ unit q = u.megameter)
  /\ (forall c, coord = Some c -> unit c = u.pixel ->
                unit_conversion self coord "megameter" true = Raise NameError)
  /\ (forall c r p m,
        coord = Some c -> unit c = u.arcsec ->
        px_res self = Some (Scalar r) -> pointing self = Some p -> mid self = Some m ->
        broadcasts_to_pair (value c) = true ->
        unit_conversion self coord "megameter" true = Ok None).
Proof.
  split; [|split].
  - intros q H. rewrite unit_conversion_eq in H. unfold unit_conversion_body in H.
    cbn [negb] in H.
    change (String.eqb "megameter" "pix") with false in H.
    change (String.eqb "megameter" "arcsec") with false in H.
    change (String.eqb "megameter" "megameter") with true in H. cbv iota in H.
    destruct coord as [c|]; cbn [quantity mbind result_bind] in H; [|discriminate H].
    case_unit c H; [discriminate H|].
    case_unit c H.
    { destruct (unit_conversion self (Some c) "pix" true) as [inner|]; cbn in H;
        [|discriminate H].
      rewrite flat_megameter_None in H. discriminate H. }
    case_unit c H; [|discriminate H].
    injection H as <-. auto.
  - intros c -> Hc. rewrite unit_conversion_eq. unfold unit_conversion_body.
    cbn [negb quantity mbind result_bind]. rewrite Hc. reflexivity.
  - intros c r [py px] [my mx] -> Hc Hr Hp Hm Hv.
    rewrite unit_conversion_eq. unfold unit_conversion_body.
    cbn [negb quantity mbind result_bind]. rewrite Hc. run.
    destruct c as [v un]. cbn in Hc. subst un. cbn [value] in Hv.
    rewrite unit_conversion_eq. unfold unit_conversion_body, self_px_res, self_mid,
      self_pointing. rewrite Hr, Hp, Hm.
    destruct v as [x|[|x [|y [|z xs]]]]; try discriminate Hv;
      run; apply flat_megameter_None.
Qed.

Lemma centred_megameter_never_converts_witness :
  unit_conversion (observation false) (pixels [1; 2]%Q) "megameter" true
  = Raise NameError
  /\ unit_conversion (observation false)
       (Some {| value := Vec [1; 2]%Q; unit := u.arcsec |}) "megameter" true
     = Ok None.
Proof.
  split.
  - destruct (centred_megameter_never_converts (observation false)
                (pixels [1; 2]%Q)) as (_ & Pixels & _).
    apply (Pixels {| value := Vec [1; 2]%Q; unit := u.pixel |}); reflexivity.
  - destruct (centred_megameter_never_converts (observation false)
                (Some {| value := Vec [1; 2]%Q; unit := u.arcsec |}))
      as (_ & _ & Arcsec).
    apply (Arcsec {| value := Vec [1; 2]%Q; unit := u.arcsec |} (59 # 1000)
             (100, 200)%Q (512, 512)%Q); reflexivity.
Defined.

(** With [centre=True] a coordinate in megametres is converted to pixels
    without the pointing and without the centre pixel: the result is that of
    [centre=False], on any accessor of the same pixel resolution. *)
Theorem megameter_to_pixel_ignores_centre (self self' : CRISP.t) (c : Quantity) :
  unit c = u.megameter ->
  px_res self = px_res self' ->
  unit_conversion self (Some c) "pix" true = unit_conversion self' (Some c) "pix" false.
Proof.
  intros Hc Hr. rewrite (unit_conversion_eq self (Some c) "pix" true).
  unfold unit_conversion_body. cbn [negb quantity mbind result_bind].
  rewrite Hc. run.
  rewrite (unit_conversion_eq self (Some c) "pix" false),
    (unit_conversion_eq self' (Some c) "pix" false).
  unfold unit_conversion_body, self_px_res. cbn [negb quantity mbind result_bind].
  rewrite Hr. reflexivity.
Qed.


Lemma megameter_to_pixel_ignores_centre_witness :
  unit (megametres [1; 2]%Q) = u.megameter
  /\ px_res (observation false) = px_res (observation true)
  /\ unit_conversion (observation false) (Some (megametres [1; 2]%Q)) "pix" true
     = unit_conversion (observation true) (Some (megametres [1; 2]%Q)) "pix" false.
Proof.
  split; [reflexivity|]. split; [reflexivity|].
  apply (megameter_to_pixel_ignores_centre (observation false) (observation true)
           (megametres [1; 2]%Q)); reflexivity.
Defined.

Lemma centred_component (r m p y : Q) :
  ~ (r == 0)%Q ->
  recentred m y (m + inject_Z (round_half_even (((y - m) * r + p - p) / r))).
Proof.
  intros Hr.
  assert (E : (((y - m) * r + p - p) / r == y - m)%Q) by (field; exact Hr).
  rewrite (round_half_even_comp _ _ E).
  pose proof (round_half_even_near (y - m)) as Hn.
  apply Qabs_Qle_condition in Hn. destruct Hn as [Hlo Hhi].
  split.
  - apply Qabs_Qle_condition. split; lra.
  - intros Hw. rewrite (round_half_even_whole _ Hw). ring.
Qed.

(** With [centre=True] and a non-zero pixel resolution, a (y, x) pixel
    converted to arcseconds and back to pixels comes back within half a
    pixel in each component, and unchanged in a component that is a whole
    number of pixels away from the centre pixel. *)
Theorem centred_pixel_round_trip (self : CRISP.t) (r y x : Q) (p m : Q * Q) :
  px_res self = Some (Scalar r) ->
  ~ (r == 0)%Q ->
  pointing self = Some p ->
  mid self = Some m ->
  exists a b_y b_x,
    unit_conversion self (pixels [y; x]) "arcsec" true = Ok (Some a)
    /\ unit a = u.arcsec
    /\ unit_conversion self (Some a) "pix" true = Ok (pixels [b_y; b_x])
    /\ recentred m.1 y b_y /\ recentred m.2 x b_x.
Proof.
  intros Hr Hnz Hp Hm. destruct p as [py px], m as [my mx].
  eexists. eexists. eexists.
  split.
  { rewrite unit_conversion_eq.
    unfold unit_conversion_body, self_px_res, self_mid, self_pointing, pixels.
    rewrite Hr, Hp, Hm. run. reflexivity. }
  split; [reflexivity|].
  split.
  { rewrite unit_conversion_eq.
    unfold unit_conversion_body, self_px_res, self_mid, self_pointing, pixels.
    rewrite Hr, Hp, Hm. run. reflexivity. }
  cbn [fst snd]. split; now apply centred_component.
Qed.

Lemma centred_pixel_round_trip_witness :
  px_res (observation false) = Some (Scalar (59 # 1000))
  /\ ~ (59 # 1000 == 0)%Q
  /\ exists a b_y b_x,
       unit_conversion (observation false) (pixels [10; 700]%Q) "arcsec" true = Ok (Some a)
       /\ unit a = u.arcsec
       /\ unit_conversion (observation false) (Some a) "pix" true = Ok (pixels [b_y; b_x])
       /\ recentred 512 10 b_y /\ recentred 512 700 b_x.
Proof.
  split; [reflexivity|]. split; [discriminate|].
  apply (centred_pixel_round_trip (observation false) (59 # 1000) 10 700
           (100, 200)%Q (512, 512)%Q); [reflexivity | discriminate | reflexivity | reflexivity].
Defined.

Lemma broadcast_raises f a b e : broadcast f a b = Raise e -> e = ValueError.
Proof.
  unfold broadcast. destruct a as [x|xs], b as [y|ys]; try discriminate.
  destruct (Nat.eqb (length xs) (length ys)); [discriminate|].
  destruct xs as [|x [|x' xs]], ys as [|y [|y' ys]]; try discriminate;
    now intros [= <-].
Qed.

Lemma q_mul_raises a b e : q_mul a b = Raise e -> e = ValueError.
Proof.
  unfold q_mul. destruct (broadcast Qmult (value a) (value b)) eqn:E; cbn;
    [discriminate|]. intros [= <-]. exact (broadcast_raises _ _ _ _ E).
Qed.

Lemma q_div_raises a b e : q_div a b = Raise e -> e = ValueError.
Proof.
  unfold q_div. destruct (broadcast Qdiv (value a) (value b)) eqn:E; cbn;
    [discriminate|]. intros [= <-]. exact (broadcast_raises _ _ _ _ E).
Qed.

Lemma q_add_raises a b e : unit a = unit b -> q_add a b = Raise e -> e = ValueError.
Proof.
  intros Hu. unfold q_add, u.eqb. rewrite Hu, bool_decide_eq_true_2 by reflexivity.
  destruct (broadcast Qplus (value a) (value b)) eqn:E; cbn; [discriminate|].
  intros [= <-]. exact (broadcast_raises _ _ _ _ E).
Qed.

Lemma q_sub_raises a b e : unit a = unit b -> q_sub a b = Raise e -> e = ValueError.
Proof.
  intros Hu. unfold q_sub, u.eqb. rewrite Hu, bool_decide_eq_true_2 by reflexivity.
  destruct (broadcast Qminus (value a) (value b)) eqn:E; cbn; [discriminate|].
  intros [= <-]. exact (broadcast_raises _ _ _ _ E).
Qed.

Lemma self_px_res_raises self e : self_px_res self = Raise e -> e = AttributeError.
Proof. unfold self_px_res. destruct (px_res self); cbn; [discriminate|]. now intros [= <-]. Qed.

Lemma self_pointing_raises self e : self_pointing self = Raise e -> e = AttributeError.
Proof.
  unfold self_pointing. destruct (pointing self); cbn; [discriminate|]. now intros [= <-].
Qed.

Lemma self_mid_raises self e : self_mid self = Raise e -> e = AttributeError.
Proof. unfold self_mid. destruct (mid self); cbn; [discriminate|]. now intros [= <-]. Qed.

(** The step [E] that raised is an attribute read or an arithmetic
    operation between quantities of one unit. *)
Ltac raised E :=
  first
    [ apply self_px_res_raises in E
    | apply self_pointing_raises in E
    | apply self_mid_raises in E
    | apply q_mul_raises in E
    | apply q_div_raises in E
    | apply q_add_raises in E; [|cbn [np_round unit]; units; reflexivity]
    | apply q_sub_raises in E; [|cbn [np_round unit]; units; reflexivity] ];
  subst; auto.

Ltac raise_inv H :=
  lazymatch type of H with
  | (?m ≫= _) = Raise _ =>
      let E := fresh "E" in
      destruct m eqn:E; cbn [mbind result_bind] in H; cbv zeta in H;
      [raise_inv H | injection H as <-; raised E]
  | Ok _ = Raise _ => discriminate H
  | Raise _ = Raise _ => injection H as <-; auto
  | _ => idtac
  end.

Lemma flat_conversion_errors self coord unit_to e :
  unit_conversion self coord unit_to false = Raise e ->
  e = AttributeError \/ e = ValueError.
Proof.
  intros H. rewrite unit_conversion_eq in H. unfold unit_conversion_body in H.
  cbn [negb] in H.
  repeat (destruct (String.eqb unit_to _);
          [destruct coord as [c|]; cbn [quantity mbind result_bind] in H;
           [|injection H as <-; auto];
           repeat (case_unit c H; [raise_inv H|]); raise_inv H|]).
  discriminate H.
Qed.

Lemma pixel_to_arcsec_centred_errors self c e :
  unit c = u.pixel ->
  unit_conversion self (Some c) "arcsec" true = Raise e ->
  e = AttributeError \/ e = ValueError.
Proof.
  intros Eu H. rewrite unit_conversion_eq in H. unfold unit_conversion_body in H.
  cbn [negb quantity mbind result_bind] in H. rewrite Eu in H.
  change (String.eqb "arcsec" "pix") with false in H.
  change (String.eqb "arcsec" "arcsec") with true in H.
  change (u.eqb u.pixel u.pixel) with true in H. cbv iota in H.
  raise_inv H.
Qed.

Lemma arcsec_to_pixel_centred_errors self c e :
  unit c = u.arcsec ->
  unit_conversion self (Some c) "pix" true = Raise e ->
  e = AttributeError \/ e = ValueError.
Proof.
  intros Eu H. rewrite unit_conversion_eq in H. unfold unit_conversion_body in H.
  cbn [negb quantity mbind result_bind] in H. rewrite Eu in H.
  change (String.eqb "pix" "pix") with true in H.
  change (u.eqb u.arcsec u.pixel) with false in H.
  change (u.eqb u.arcsec u.arcsec) with true in H. cbv iota in H.
  raise_inv H.
Qed.

Lemma pix_conversion_errors self coord centre e :
  unit_conversion self coord "pix" centre = Raise e ->
  e = AttributeError \/ e = ValueError.
Proof.
  intros H. destruct centre; [|exact (flat_conversion_errors _ _ _ _ H)].
  rewrite unit_conversion_eq in H. unfold unit_conversion_body in H. cbn [negb] in H.
  change (String.eqb "pix" "pix") with true in H. cbv iota in H.
  destruct coord as [c|]; cbn [quantity mbind result_bind] in H;
    [|injection H as <-; auto].
  case_unit c H; [discriminate H|].
  case_unit c H.
  { raise_inv H. }
  case_unit c H; [exact (flat_conversion_errors _ _ _ _ H)|discriminate H].
Qed.

(** [unit_conversion] raises nothing but AttributeError (a missing
    attribute of the accessor, or [None] as coordinate), ValueError (shapes
    that do not broadcast) and NameError; NameError only for a coordinate in
    pixels with target "megameter" and [centre=True].  It raises no error
    of units and never exceeds the recursion limit. *)
Theorem unit_conversion_errors
    (self : CRISP.t) (coord : option Quantity) (unit_to : string) (centre : bool)
    (e : exn) :
  unit_conversion self coord unit_to centre = Raise e ->
  e = AttributeError \/ e = ValueError
  \/ (e = NameError /\ centre = true /\ unit_to = "megameter"
      /\ exists c, coord = Some c /\ unit c = u.pixel).
Proof.
  intros H.
  assert (Flat : forall co ut, unit_conversion self co ut false = Raise e ->
                 e = AttributeError \/ e = ValueError
                 \/ (e = NameError /\ centre = true /\ unit_to = "megameter"
                     /\ exists c, coord = Some c /\ unit c = u.pixel)).
  { intros co ut Hf. destruct (flat_conversion_errors _ _ _ _ Hf); auto. }
  destruct centre; [|exact (Flat _ _ H)].
  rewrite unit_conversion_eq in H. unfold unit_conversion_body in H. cbn [negb] in H.
  destruct (String.eqb unit_to "pix").
  { destruct coord as [c|]; cbn [quantity mbind result_bind] in H;
      [|injection H as <-; auto].
    case_unit c H; [discriminate H|].
    case_unit c H.
    { raise_inv H. }
    case_unit c H; [exact (Flat _ _ H)|discriminate H]. }
  destruct (String.eqb unit_to "arcsec").
  { destruct coord as [c|]; cbn [quantity mbind result_bind] in H;
      [|injection H as <-; auto].
    case_unit c H; [raise_inv H|].
    case_unit c H; [raise_inv H|].
    case_unit c H; [|discriminate H].
    destruct (unit_conversion self (Some c) "pix" false) as [inner|e'] eqn:Ei;
      cbn [mbind result_bind] in H.
    - rewrite unit_conversion_eq in Ei.
      destruct (megameter_to_pix_unit self _ _ _ Eu Ei) as (q & -> & Hq).
      destruct (pixel_to_arcsec_centred_errors _ _ _ Hq H); auto.
    - injection H as <-. exact (Flat _ _ Ei). }
  destruct (String.eqb unit_to "megameter") eqn:Et; [|discriminate H].
  apply String.eqb_eq in Et.
  destruct coord as [c|]; cbn [quantity mbind result_bind] in H;
    [|injection H as <-; auto].
  case_unit c H.
  { injection H as <-. right. right. repeat split; eauto. }
  case_unit c H.
  { destruct (unit_conversion self (Some c) "pix" true) as [inner|e'] eqn:Ei;
      cbn [mbind result_bind] in H.
    - rewrite flat_megameter_None in H. discriminate H.
    - injection H as <-.
      destruct (arcsec_to_pixel_centred_errors _ _ _ Eu Ei); auto. }
  case_unit c H; discriminate H.
Qed.

Lemma unit_conversion_errors_witness :
  unit_conversion CRISP.new (pixels [1; 2]%Q) "arcsec" false = Raise AttributeError
  /\ (AttributeError = AttributeError \/ AttributeError = ValueError
      \/ (AttributeError = NameError /\ false = true /\ "arcsec" = "megameter"
          /\ exists c, pixels [1; 2]%Q = Some c /\ unit c = u.pixel)).
Proof.
  split; [vm_compute; reflexivity|].
  apply (unit_conversion_errors CRISP.new (pixels [1; 2]%Q) "arcsec" false).
  vm_compute; reflexivity.
Defined.

End MoreConversions.

(** Split a hypothesis [m ≫= k = Ok r] into the steps that succeeded. *)
Ltac bind_ok H :=
  repeat match type of H with
         | (?m ≫= _) = Ok _ =>
             let E := fresh "E" in
             destruct m eqn:E; cbn [mbind result_bind] in H; [|discriminate H]
         end.

(** ** Intensity vectors: what a call can raise *)

Section MoreIntensityVector.
Import CRISP.

Lemma getitem_shape_errors ix : forall sh e,
  getitem_shape sh ix = Raise e -> e = IndexError.
Proof.
  induction ix as [|[i|lo hi] ix IH]; intros [|n sh] e; cbn [getitem_shape];
    try discriminate; try (now intros [= <-]).
  - destruct (in_range i n); [apply IH|now intros [= <-]].
  - destruct (getitem_shape sh ix) as [r|e'] eqn:E; cbn [mbind result_bind];
      [discriminate|].
    intros [= <-]. exact (IH _ _ E).
Qed.

Lemma subscript_data_errors d pre xs e :
  subscript_data d pre xs = Raise e -> e = TypeError \/ e = IndexError.
Proof.
  destruct d as [a|]; cbn [subscript_data]; [|intros [= <-]; auto].
  destruct xs as [|x xs]; [|intros [= <-]; auto].
  cbn [as_indices mbind result_bind]. unfold getitem.
  destruct (getitem_shape (shape a) (pre ++ [])) as [sh|e'] eqn:E;
    cbn [mbind result_bind]; [discriminate|].
  intros [= <-]. right. exact (getitem_shape_errors _ _ _ E).
Qed.

(** [intensity_vector] raises nothing but WiseGuyError, AttributeError,
    ValueError, TypeError and IndexError, and WiseGuyError only with
    [pol=True]: no KeyError, no NameError, no error of units.  A call with
    [pol=False] never raises the module's own exception. *)
Theorem intensity_vector_errors
    (self : CRISP.t) (coord : option Quantity) (line : string) (pol centre : bool)
    (e : exn) :
  intensity_vector self coord line pol centre = Raise e ->
  (e = WiseGuyError /\ pol = true)
  \/ e = AttributeError \/ e = ValueError \/ e = TypeError \/ e = IndexError.
Proof.
  intros H. unfold intensity_vector in H.
  destruct (String.eqb line "ha" && pol) eqn:Guard.
  { injection H as <-. apply andb_true_iff in Guard as [_ ->]. auto. }
  destruct (unit_conversion self coord "pix" centre) as [px|e'] eqn:Epx;
    cbn [mbind result_bind] in H.
  2:{ injection H as <-.
      destruct (pix_conversion_errors _ _ _ _ Epx) as [-> | ->]; auto. }
  assert (Indexed : forall d pre,
             (xs ← unpack px; r ← subscript_data d pre xs; Ok (Some r)) = Raise e ->
             e = TypeError \/ e = IndexError).
  { intros d pre Hd. destruct (unpack px) as [xs|e'] eqn:Exs;
      cbn [mbind result_bind] in Hd.
    - destruct (subscript_data d pre xs) as [v|e'] eqn:Ev;
        cbn [mbind result_bind] in Hd; [discriminate Hd|].
      injection Hd as <-. exact (subscript_data_errors _ _ _ _ Ev).
    - injection Hd as <-. left.
      unfold unpack in Exs. destruct px as [c|]; [|now injection Exs as <-].
      destruct (value c); [now injection Exs as <-|discriminate Exs]. }
  destruct (String.eqb (lower line) "ca").
  - destruct pol; cbn [negb] in H;
      (destruct (ca self) as [c|]; cbn [getattr mbind result_bind] in H;
       [|injection H as <-; auto]);
      (destruct (data c) as [d|]; cbn [getattr mbind result_bind] in H;
       [|injection H as <-; auto]);
      destruct (Nat.eqb (ndim d) 4);
      first [ injection H as <-; now left
            | destruct (Indexed _ _ H) as [-> | ->]; auto 6 ].
  - destruct (String.eqb (lower line) "ha"); [|discriminate H].
    destruct (ha self) as [h|]; cbn [getattr mbind result_bind] in H;
      [|injection H as <-; auto].
    destruct (Indexed _ _ H) as [-> | ->]; auto 6.
Qed.

Lemma intensity_vector_errors_witness :
  intensity_vector CRISP.new (pixels [512; 512]%Q) "ca" false false
  = Raise AttributeError
  /\ ((AttributeError = WiseGuyError /\ false = true)
      \/ AttributeError = AttributeError \/ AttributeError = ValueError
      \/ AttributeError = TypeError \/ AttributeError = IndexError).
Proof.
  assert (Raised : intensity_vector CRISP.new (pixels [512; 512]%Q)
                     "ca" false false = Raise AttributeError)
    by (vm_compute; reflexivity).
  split; [exact Raised|].
  exact (intensity_vector_errors CRISP.new (pixels [512; 512]%Q)
           "ca" false false AttributeError Raised).
Defined.

(** The line name is compared in lower case: any capitalisation of "ca"
    behaves as "ca".  A name whose lower case is neither "ca" nor "ha" makes
    the method convert the coordinate and then return None. *)
Theorem line_dispatch
    (self : CRISP.t) (coord : option Quantity) (line : string) (pol centre : bool) :
  (lower line = "ca" ->
   intensity_vector self coord line pol centre
   = intensity_vector self coord "ca" pol centre)
  /\ (lower line <> "ca" -> lower line <> "ha" ->
      intensity_vector self coord line pol centre
      = (_ ← unit_conversion self coord "pix" centre; Ok None)).
Proof.
  split.
  - intros Hlow.
    assert (Hne : String.eqb line "ha" = false).
    { apply String.eqb_neq. intros ->. discriminate Hlow. }
    unfold intensity_vector. rewrite Hne, Hlow.
    change (lower "ca") with "ca". change (String.eqb "ca" "ha") with false.
    reflexivity.
  - intros Hca Hha.
    assert (Hne : String.eqb line "ha" = false).
    { apply String.eqb_neq. intros ->. now apply Hha. }
    apply String.eqb_neq in Hca, Hha.
    unfold intensity_vector. rewrite Hne, Hca, Hha. reflexivity.
Qed.

Lemma line_dispatch_witness :
  intensity_vector (observation false) (pixels [1; 2]%Q) "Ca" false false
  = intensity_vector (observation false) (pixels [1; 2]%Q) "ca" false false
  /\ intensity_vector (observation false) (pixels [1; 2]%Q) "fe" false false = Ok None.
Proof.
  destruct (line_dispatch (observation false) (pixels [1; 2]%Q) "Ca" false false)
    as [Same _].
  destruct (line_dispatch (observation false) (pixels [1; 2]%Q) "fe" false false)
    as [_ Other].
  split; [apply Same; reflexivity|].
  etransitivity; [apply Other; discriminate|]. vm_compute; reflexivity.
Defined.

End MoreIntensityVector.

(** ** Ingestion: what a construction leaves on the accessor *)

Section MoreIngestion.
Import CRISP.

Lemma init_step_calcium fs self f self' :
  str_in "ca" f = true ->
  init_step fs self f = Ok self' ->
  present (ca self') = true /\ present (px_res self') = true
  /\ present (pointing self') = true /\ present (mid self') = true
  /\ ha self' = ha self.
Proof.
  intros Hca H. unfold init_step in H. rewrite file_kind_spec, Hca in H.
  destruct (str_in ".fits" f); unfold load_fits_ca, load_h5_ca in H;
    bind_ok H; injection H as <-; cbn; auto.
Qed.

Lemma init_step_halpha fs self f self' :
  str_in "ca" f = false ->
  init_step fs self f = Ok self' ->
  present (ha self') = true /\ ca self' = ca self /\ px_res self' = px_res self
  /\ pointing self' = pointing self /\ mid self' = mid self.
Proof.
  intros Hca H. unfold init_step in H. rewrite file_kind_spec, Hca in H.
  destruct (str_in ".fits" f); unfold load_fits_ha_listed, load_h5_ha_listed in H;
    bind_ok H; injection H as <-; cbn; auto.
Qed.

Lemma init_paths_fields fs files : forall self self',
  init_paths fs self files = Ok self' ->
  present (ca self') = present (ca self) || existsb (str_in "ca") files
  /\ present (px_res self') = present (px_res self) || existsb (str_in "ca") files
  /\ present (pointing self') = present (pointing self) || existsb (str_in "ca") files
  /\ present (mid self') = present (mid self) || existsb (str_in "ca") files
  /\ present (ha self')
     = present (ha self) || existsb (fun f => negb (str_in "ca" f)) files.
Proof.
  induction files as [|f files IH]; intros self self' H; cbn [init_paths] in H.
  - injection H as <-. cbn. rewrite !orb_false_r. auto.
  - destruct (init_step fs self f) as [s1|] eqn:E1; cbn [mbind result_bind] in H;
      [|discriminate H].
    destruct (IH _ _ H) as (Ca & Px & Pt & Mi & Ha). cbn [existsb].
    destruct (str_in "ca" f) eqn:Ef.
    + destruct (init_step_calcium _ _ _ _ Ef E1) as (C1 & P1 & T1 & M1 & H1).
      rewrite Ca, Px, Pt, Mi, Ha, C1, P1, T1, M1, H1. cbn.
      rewrite !orb_true_r. auto.
    + destruct (init_step_halpha _ _ _ _ Ef E1) as (H1 & C1 & P1 & T1 & M1).
      rewrite Ca, Px, Pt, Mi, Ha, C1, P1, T1, M1, H1. cbn.
      rewrite !orb_true_r. auto.
Qed.

(** An accessor built from a list of files has the calcium cube, the pixel
    resolution, the pointing and the centre pixel exactly when some path
    contains "ca", and the H-alpha cube exactly when some path does not:
    the H-alpha branches of the loop set no geometry.  Built from H-alpha
    files alone, it cannot convert pixels to arcseconds: the conversion
    raises AttributeError. *)
Theorem list_ingestion_geometry
    (fs : filesystem) (files : list string) (self : CRISP.t) :
  __init__ fs (Paths files) = Ok self ->
  present (ca self) = existsb (str_in "ca") files
  /\ present (px_res self) = existsb (str_in "ca") files
  /\ present (pointing self) = existsb (str_in "ca") files
  /\ present (mid self) = existsb (str_in "ca") files
  /\ present (ha self) = existsb (fun f => negb (str_in "ca" f)) files
  /\ (existsb (str_in "ca") files = false ->
      forall c, unit c = u.pixel ->
                unit_conversion self (Some c) "arcsec" false = Raise AttributeError).
Proof.
  intros H. cbn [__init__] in H.
  destruct (init_paths_fields _ _ _ _ H) as (Ca & Px & Pt & Mi & Ha).
  cbn in Ca, Px, Pt, Mi, Ha.
  repeat (split; [assumption|]).
  intros Hno c Hc. rewrite Hno in Px.
  rewrite unit_conversion_eq. unfold unit_conversion_body, self_px_res.
  cbn [negb quantity mbind result_bind]. rewrite Hc.
  destruct (px_res self); [discriminate Px|]. reflexivity.
Qed.

Lemma list_ingestion_geometry_witness :
  __init__ disk (Paths ["halpha.fits"]) = Ok halpha_listed
  /\ present (ha halpha_listed) = true
  /\ present (px_res halpha_listed) = false
  /\ unit_conversion halpha_listed (pixels [1; 2]%Q) "arcsec" false
     = Raise AttributeError.
Proof.
  assert (Built : __init__ disk (Paths ["halpha.fits"]) = Ok halpha_listed)
    by (vm_compute; reflexivity).
  destruct (list_ingestion_geometry disk ["halpha.fits"] halpha_listed Built)
    as (_ & Px & _ & _ & Ha & Flat).
  split; [exact Built|]. split; [exact Ha|]. split; [exact Px|].
  apply Flat; reflexivity.
Defined.

Lemma fits_pointing_numeric (h : HDU) crval1 crval2 :
  hdu_header h !! "CRVAL1" = Some (CNum crval1) ->
  hdu_header h !! "CRVAL2" = Some (CNum crval2) ->
  fits_pointing h = Ok (crval2, crval1).
Proof. intros H1 H2. unfold fits_pointing, subscript. now rewrite H2, H1. Qed.

Lemma fits_mid_numeric (h : HDU) naxis1 naxis2 :
  hdu_header h !! "NAXIS1" = Some (CNum naxis1) ->
  hdu_header h !! "NAXIS2" = Some (CNum naxis2) ->
  fits_mid h = Ok (floordiv2 naxis2, floordiv2 naxis1).
Proof. intros H1 H2. unfold fits_mid, subscript. now rewrite H2, H1. Qed.

Lemma fits_px_res_numeric (h : HDU) cdelt :
  hdu_header h !! "CDELT1" = Some (CNum cdelt) ->
  fits_px_res h = Ok (Scalar cdelt).
Proof. intros H. unfold fits_px_res, subscript. now rewrite H. Qed.

Lemma fits_px_res_string (h : HDU) s q :
  hdu_header h !! "CDELT1" = Some (CStr s) -> str_number s = Some q ->
  fits_px_res h = Ok (Scalar q).
Proof.
  intros H Hq. unfold fits_px_res, subscript. rewrite H.
  cbn [mbind result_bind card_val val_arr]. now rewrite Hq.
Qed.

(** A single FITS file that loads, with numbers in the CRVAL1, CRVAL2,
    NAXIS1 and NAXIS2 cards of its primary header, leaves on the accessor
    what the header says: the pointing is (CRVAL2, CRVAL1), the centre pixel
    is (NAXIS2 // 2, NAXIS1 // 2), and the pixel resolution is CDELT1,
    whether that card holds a number or a string that spells one.  The
    primary HDU becomes the calcium cube when the path contains "ca" and the
    H-alpha cube otherwise, and the other line stays unset. *)
Theorem fits_ingestion_metadata
    (fs : filesystem) (path : string) (self : CRISP.t) (h : HDU) (rest : list HDU)
    (crval1 crval2 naxis1 naxis2 : Q) :
  str_in ".fits" path = true ->
  fs path = Some (FitsFile (h :: rest)) ->
  hdu_header h !! "CRVAL1" = Some (CNum crval1) ->
  hdu_header h !! "CRVAL2" = Some (CNum crval2) ->
  hdu_header h !! "NAXIS1" = Some (CNum naxis1) ->
  hdu_header h !! "NAXIS2" = Some (CNum naxis2) ->
  __init__ fs (Str path) = Ok self ->
  pointing self = Some (crval2, crval1)
  /\ mid self = Some (floordiv2 naxis2, floordiv2 naxis1)
  /\ (forall cdelt,
        hdu_header h !! "CDELT1" = Some (CNum cdelt) ->
        px_res self = Some (Scalar cdelt))
  /\ (forall s q,
        hdu_header h !! "CDELT1" = Some (CStr s) -> str_number s = Some q ->
        px_res self = Some (Scalar q))
  /\ (if str_in "ca" path
      then ca self = Some (hdu_cube h) /\ ha self = None
      else ha self = Some (hdu_cube h) /\ ca self = None).
Proof.
  intros Hfits Hfs C1 C2 N1 N2 H.
  unfold __init__, init_str in H. rewrite file_kind_spec, Hfits in H.
  assert (Load : exists w r,
             fits_px_res h = Ok r
             /\ self = set_geometry
                         (if str_in "ca" path then set_ca new (hdu_cube h) w
                          else set_ha new (hdu_cube h) w)
                         r (crval2, crval1) (floordiv2 naxis2, floordiv2 naxis1)).
  { destruct (str_in "ca" path); unfold load_fits_ca, load_fits_ha, fits_open in H;
      rewrite Hfs in H; cbn [mbind result_bind] in H;
      rewrite (seq_index_0 (h :: rest) h eq_refl) in H; cbn [mbind result_bind] in H;
      rewrite (fits_pointing_numeric h crval1 crval2 C1 C2),
              (fits_mid_numeric h naxis1 naxis2 N1 N2) in H;
      (destruct (fits_wvls fs path h) as [w|]; cbn [mbind result_bind] in H;
       [|discriminate H]);
      (destruct (fits_px_res h) as [r|]; cbn [mbind result_bind] in H;
       [|discriminate H]);
      injection H as <-; eauto. }
  destruct Load as (w & r & Hr & ->).
  split; [reflexivity|]. split; [reflexivity|]. split; [|split].
  - intros cdelt Hc. rewrite (fits_px_res_numeric h cdelt Hc) in Hr.
    injection Hr as <-. reflexivity.
  - intros s q Hc Hq. rewrite (fits_px_res_string h s q Hc Hq) in Hr.
    injection Hr as <-. reflexivity.
  - destruct (str_in "ca" path); split; reflexivity.
Qed.

Lemma fits_ingestion_metadata_witness :
  (disk "halpha.fits" = Some (FitsFile [primary; wavelength_ext])
   /\ __init__ disk (Str "halpha.fits") = Ok halpha_fits
   /\ pointing halpha_fits = Some (-5, 10)%Q
   /\ mid halpha_fits = Some (floordiv2 1000, floordiv2 1000)
   /\ px_res halpha_fits = Some (Scalar (592 # 10000))
   /\ ha halpha_fits = Some (hdu_cube primary) /\ ca halpha_fits = None)
  /\ (archive "halpha_quoted.fits" = Some (FitsFile [quoted_primary; wavelength_ext])
      /\ hdu_header quoted_primary !! "CDELT1" = Some (CStr "0.0592")
      /\ __init__ archive (Str "halpha_quoted.fits") = Ok halpha_quoted
      /\ px_res halpha_quoted = Some (Scalar (592 # 10000))).
Proof.
  assert (Loads : __init__ disk (Str "halpha.fits") = Ok halpha_fits)
    by (vm_compute; reflexivity).
  assert (Loads' : __init__ archive (Str "halpha_quoted.fits") = Ok halpha_quoted)
    by (vm_compute; reflexivity).
  destruct (fits_ingestion_metadata disk "halpha.fits" halpha_fits primary
              [wavelength_ext] 10 (-5) 1000 1000
              eq_refl eq_refl eq_refl eq_refl eq_refl eq_refl Loads)
    as (Pointing & Mid & Number & _ & Line).
  destruct (fits_ingestion_metadata archive "halpha_quoted.fits" halpha_quoted
              quoted_primary [wavelength_ext] 10 (-5) 1000 1000
              eq_refl eq_refl eq_refl eq_refl eq_refl eq_refl Loads')
    as (_ & _ & _ & Spelled & _).
  split.
  - split; [reflexivity|]. split; [exact Loads|]. split; [exact Pointing|].
    split; [exact Mid|]. split; [exact (Number (592 # 10000)%Q eq_refl)|].
    exact Line.
  - split; [reflexivity|]. split; [reflexivity|]. split; [exact Loads'|].
    apply (Spelled "0.0592"); [reflexivity|vm_compute; reflexivity].
Defined.

End MoreIngestion.

(** ** Description: what a returned description is about *)

Section MoreDescription.
Import CRISP.

Lemma try_except_Ok {A} (body handler : result A) caught a :
  try_except body caught handler = Ok a -> body = Ok a \/ handler = Ok a.
Proof.
  unfold try_except. destruct body as [b|e]; [intros [= ->]; auto|].
  destruct (decide (e = caught)); [auto|discriminate].
Qed.

Lemma fields_both_elements self f :
  fits_fields_both self = Ok f \/ h5_fields_both self = Ok f ->
  length f.1.1.2 = 2%nat /\ length f.1.2 = 2%nat.
Proof.
  intros [H|H]; unfold fits_fields_both, h5_fields_both in H; bind_ok H;
    injection H as <-; auto.
Qed.

Lemma fields_one_elements line f :
  fits_fields line = Ok f \/ h5_fields line = Ok f ->
  length f.1.1.2 = 1%nat /\ length f.1.2 = 1%nat.
Proof.
  intros [H|H]; unfold fits_fields, h5_fields in H; bind_ok H;
    injection H as <-; auto.
Qed.

Lemma render_inv tpl line f r :
  render tpl line f = Ok r ->
  exists c a, line = Some c /\ data c = Some a
    /\ match r with
       | Some d =>
           which d = tpl /\ elements d = f.1.1.2 /\ samples d = f.1.2
           /\ stokes_present d = (if Nat.eqb (ndim a) 3 then OnlyI else AllStokes)
           /\ (ndim a = 3 \/ ndim a = 4)%nat
       | None => ndim a <> 3%nat /\ ndim a <> 4%nat
       end.
Proof.
  unfold render. destruct line as [c|]; cbn; [|discriminate].
  destruct (data c) as [a|] eqn:Ed; cbn; [|discriminate].
  destruct f as [[[[dt tm] els] smp] pt]. intros H. exists c, a.
  split; [reflexivity|]. split; [exact Ed|].
  destruct (Nat.eqb (ndim a) 3) eqn:E3.
  { injection H as <-. apply Nat.eqb_eq in E3. cbn. auto 10. }
  destruct (Nat.eqb (ndim a) 4) eqn:E4.
  { injection H as <-. apply Nat.eqb_eq in E4. cbn. auto 10. }
  injection H as <-. apply Nat.eqb_neq in E3, E4. auto.
Qed.

(** Whenever [__str__] returns, the accessor holds a calcium cube with data.
    A returned description uses the both-lines sentence when H-alpha is
    present and the calcium-only sentence when it is not, never the
    H-alpha-only one; it names two elements or one accordingly, with as many
    sample counts; and it says "Only Stokes I" for a 3-dimensional calcium
    cube and "All Stokes" for a 4-dimensional one.  The method returns None
    exactly when the calcium cube has some other number of dimensions. *)
Theorem str_describes_calcium (self : CRISP.t) (r : option description) :
  __str__ self = Ok r ->
  exists c a,
    ca self = Some c /\ data c = Some a
    /\ match r with
       | Some d =>
           which d = (if present (ha self) then BothLines else CaOnly)
           /\ length (elements d) = (if present (ha self) then 2 else 1)%nat
           /\ length (samples d) = length (elements d)
           /\ stokes_present d = (if Nat.eqb (ndim a) 3 then OnlyI else AllStokes)
           /\ (ndim a = 3 \/ ndim a = 4)%nat
       | None => ndim a <> 3%nat /\ ndim a <> 4%nat
       end.
Proof.
  intros H. unfold __str__ in H. rewrite presence_branch_spec in H.
  destruct (ha self) as [h|]; cbn [present].
  - destruct (try_except (fits_fields_both self) KeyError (h5_fields_both self))
      as [f|] eqn:Ef; cbn [mbind result_bind] in H; [|discriminate H].
    apply try_except_Ok in Ef. destruct (fields_both_elements _ _ Ef) as [L1 L2].
    destruct (render_inv _ _ _ _ H) as (c & a & Hc & Ha & Hr).
    exists c, a. split; [exact Hc|]. split; [exact Ha|].
    destruct r as [d|]; [|exact Hr].
    destruct Hr as (Hw & He & Hs & Hst & Hn). rewrite He, Hs, L1, L2. auto 10.
  - destruct (try_except (fits_fields (ca self)) KeyError (h5_fields (ca self)))
      as [f|] eqn:Ef; cbn [mbind result_bind] in H; [|discriminate H].
    apply try_except_Ok in Ef. destruct (fields_one_elements _ _ Ef) as [L1 L2].
    destruct (render_inv _ _ _ _ H) as (c & a & Hc & Ha & Hr).
    exists c, a. split; [exact Hc|]. split; [exact Ha|].
    destruct r as [d|]; [|exact Hr].
    destruct Hr as (Hw & He & Hs & Hst & Hn). rewrite He, Hs, L1, L2. auto 10.
Qed.

Lemma str_describes_calcium_witness :
  exists d c a,
    __str__ calcium_h5 = Ok (Some d)
    /\ ca calcium_h5 = Some c /\ data c = Some a
    /\ which d = CaOnly
    /\ length (elements d) = 1%nat
    /\ length (samples d) = length (elements d)
    /\ stokes_present d = OnlyI.
Proof.
  assert (Described : exists d, __str__ calcium_h5 = Ok (Some d))
    by (eexists; vm_compute; reflexivity).
  destruct Described as [d Hd].
  destruct (str_describes_calcium calcium_h5 (Some d) Hd)
    as (c & a & Hc & Ha & Hw & He & Hs & Hst & _).
  exists d, c, a.
  assert (Hshape : ndim a = 3%nat).
  { assert (Hca : ca calcium_h5 = Some {| header := yaml_header;
                                          data := Some (image [3; 1000; 1000]%nat) |})
      by (vm_compute; reflexivity).
    rewrite Hca in Hc. injection Hc as <-. cbn in Ha. injection Ha as <-.
    reflexivity. }
  rewrite Hshape in Hst.
  repeat (split; [assumption|]). exact Hst.
Defined.

End MoreDescription.

(** ** ObjDict: attributes are keys *)

Section ObjDictLaws.
Context {V : Type}.
Implicit Types (self : gmap string V) (name other : string) (value : V).


End ObjDictLaws.


(** ** Slicing CRISP objects and sequences *)

Section MixinFacts.
Context {U M W N T S : Type}.

Lemma getattr_inv {A} (o : option A) a : getattr o = Ok a -> o = Some a.
Proof. destruct o; cbn; congruence. Qed.

Lemma sliced_inv d item v :
  CRISPSlicingMixin.sliced d item = Ok v ->
  exists a, d = Some a /\ getitem a item = Ok v.
Proof. destruct d as [a|]; cbn; [eauto|discriminate]. Qed.

Lemma slice_keywords (self : CRISPSlicingMixin.t U M W N T) item f a v x m w n :
  CRISPSlicingMixin.file self = Some f -> CRISP.data f = Some a ->
  getitem a item = Ok v ->
  CRISPSlicingMixin._slice_uncertainty self item = Ok x ->
  CRISPSlicingMixin._slice_mask self item = Ok m ->
  CRISPSlicingMixin._slice_wcs self item = Ok w ->
  CRISPSlicingMixin.nonu self = Some n ->
  CRISPSlicingMixin._slice self item = Ok (keywords v (CRISP.header f) x m w n).
Proof.
  intros Hf Ha Hv Hx Hm Hw Hn.
  unfold CRISPSlicingMixin._slice, CRISPSlicingMixin.set_filename.
  rewrite Hf, Hn. cbn [getattr mbind result_bind]. rewrite Ha.
  cbn [CRISPSlicingMixin.sliced].
  rewrite Hv. cbn [mbind result_bind]. rewrite lookup_insert_eq.
  rewrite Hx, Hm, Hw. cbn [mbind result_bind].
  rewrite !lookup_insert_ne by discriminate. rewrite lookup_insert_eq.
  reflexivity.
Qed.

(** Slicing a CRISP object builds a new object exactly when the data can be
    indexed, the three parent slicers succeed and [nonu] is set; the class
    is then called with five keyword arguments: [filename] holding the
    sliced data under "data" and the original header, unchanged, under
    "header", and [uncertainty], [mask], [wcs] and [nonu]. *)
Theorem getitem_builds_from_sliced_data
    (self : CRISPSlicingMixin.t U M W N T) (item : list index) (r : T) :
  CRISPSlicingMixin.__getitem__ self item = Ok r <->
  exists f a v x m w n,
    CRISPSlicingMixin.file self = Some f /\ CRISP.data f = Some a
    /\ getitem a item = Ok v
    /\ CRISPSlicingMixin._slice_uncertainty self item = Ok x
    /\ CRISPSlicingMixin._slice_mask self item = Ok m
    /\ CRISPSlicingMixin._slice_wcs self item = Ok w
    /\ CRISPSlicingMixin.nonu self = Some n
    /\ CRISPSlicingMixin.__class__ self (keywords v (CRISP.header f) x m w n) = Ok r.
Proof.
  split.
  - intros H. unfold CRISPSlicingMixin.__getitem__ in H.
    destruct (CRISPSlicingMixin._slice self item) as [k|] eqn:Ek;
      cbn [mbind result_bind] in H; [|discriminate H].
    pose proof Ek as Ek'. unfold CRISPSlicingMixin._slice in Ek.
    destruct (getattr (CRISPSlicingMixin.file self)) as [f|] eqn:Ef;
      cbn [mbind result_bind] in Ek; [|discriminate Ek].
    apply getattr_inv in Ef.
    destruct (CRISPSlicingMixin.sliced (CRISP.data f) item) as [v|] eqn:Ev;
      cbn [mbind result_bind] in Ek; [|discriminate Ek].
    apply sliced_inv in Ev as (a & Ha & Hv).
    destruct (CRISPSlicingMixin.set_filename _ "data" _) as [k1|];
      cbn [mbind result_bind] in Ek; [|discriminate Ek].
    destruct (CRISPSlicingMixin._slice_uncertainty self item) as [x|] eqn:Ex;
      cbn [mbind result_bind] in Ek; [|discriminate Ek].
    destruct (CRISPSlicingMixin._slice_mask self item) as [m|] eqn:Em;
      cbn [mbind result_bind] in Ek; [|discriminate Ek].
    destruct (CRISPSlicingMixin._slice_wcs self item) as [w|] eqn:Ew;
      cbn [mbind result_bind] in Ek; [|discriminate Ek].
    destruct (CRISPSlicingMixin.set_filename _ "header" _) as [k2|];
      cbn [mbind result_bind] in Ek; [|discriminate Ek].
    destruct (getattr (CRISPSlicingMixin.nonu self)) as [n|] eqn:En;
      cbn [mbind result_bind] in Ek; [|discriminate Ek].
    apply getattr_inv in En. clear Ek.
    rewrite (slice_keywords self item f a v x m w n) in Ek' by assumption.
    injection Ek' as <-. exists f, a, v, x, m, w, n. auto 10.
  - intros (f & a & v & x & m & w & n & Hf & Ha & Hv & Hx & Hm & Hw & Hn & Hc).
    unfold CRISPSlicingMixin.__getitem__.
    rewrite (slice_keywords self item f a v x m w n) by assumption.
    exact Hc.
Qed.

Lemma slices_Forall2 (l : list (CRISPSlicingMixin.t U M W N T)) item ks :
  CRISPSequenceSlicingMixin.slices l item = Ok ks <->
  Forall2 (fun f k => CRISPSlicingMixin._slice f item = Ok k) l ks.
Proof.
  revert ks. induction l as [|f l IH]; intros ks;
    cbn [CRISPSequenceSlicingMixin.slices].
  - split; [intros [= <-]; constructor|intros H; inversion H; reflexivity].
  - split.
    + intros H. bind_ok H. injection H as <-. constructor; [assumption|].
      now apply IH.
    + intros H. inversion H as [|? k ? ks' Hk Hks]; subst.
      rewrite Hk. cbn [mbind result_bind].
      apply IH in Hks. rewrite Hks. reflexivity.
Qed.

Lemma slices_first_failure (l : list (CRISPSlicingMixin.t U M W N T)) item i f e :
  l !! i = Some f -> CRISPSlicingMixin._slice f item = Raise e ->
  (forall j g, (j < i)%nat -> l !! j = Some g ->
     exists k, CRISPSlicingMixin._slice g item = Ok k) ->
  CRISPSequenceSlicingMixin.slices l item = Raise e.
Proof.
  revert i. induction l as [|g l IH]; intros i Hi He Hbefore; [discriminate Hi|].
  destruct i as [|i]; cbn [CRISPSequenceSlicingMixin.slices].
  - injection Hi as ->. rewrite He. reflexivity.
  - destruct (Hbefore 0%nat g) as [k Hk]; [lia|reflexivity|].
    rewrite Hk. cbn [mbind result_bind].
    rewrite (IH i); [reflexivity|exact Hi|exact He|].
    intros j g' Hj Hg'. apply (Hbefore (Datatypes.S j) g'); [lia|exact Hg'].
Qed.

(** Slicing a sequence slices every member with the same item: the list
    handed to the class has one entry per member, in order, each the
    member's own [_slice] result.  If a member's [_slice] raises and all
    members before it slice, the sequence raises that member's exception and
    the class is not called. *)
Theorem sequence_slices_every_member
    (self : CRISPSequenceSlicingMixin.t U M W N T S) (item : list index) :
  (forall ks,
     CRISPSequenceSlicingMixin._slice self item = Ok ks <->
     exists l, CRISPSequenceSlicingMixin.members self = Some l
       /\ Forall2 (fun f k => CRISPSlicingMixin._slice f item = Ok k) l ks)
  /\ (forall l i f e,
        CRISPSequenceSlicingMixin.members self = Some l -> l !! i = Some f ->
        CRISPSlicingMixin._slice f item = Raise e ->
        (forall j g, (j < i)%nat -> l !! j = Some g ->
           exists k, CRISPSlicingMixin._slice g item = Ok k) ->
        CRISPSequenceSlicingMixin.__getitem__ self item = Raise e).
Proof.
  split.
  - intros ks. unfold CRISPSequenceSlicingMixin._slice. split.
    + intros H. destruct (CRISPSequenceSlicingMixin.members self) as [l|];
        cbn [getattr mbind result_bind] in H; [|discriminate H].
      exists l. split; [reflexivity|]. now apply slices_Forall2.
    + intros (l & -> & H). cbn [getattr mbind result_bind]. now apply slices_Forall2.
  - intros l i f e Hl Hi He Hb.
    unfold CRISPSequenceSlicingMixin.__getitem__, CRISPSequenceSlicingMixin._slice.
    rewrite Hl. cbn [getattr mbind result_bind].
    rewrite (slices_first_failure l item i f e Hi He Hb). reflexivity.
Qed.

End MixinFacts.

Lemma getitem_builds_from_sliced_data_witness :
  exists v,
    getitem (image [3; 4; 4]%nat) [Idx 0] = Ok v
    /\ shape v = [4; 4]%nat
    /\ CRISPSlicingMixin.__getitem__ (sliceable (Some small_cube)) [Idx 0]
       = Ok (keywords v yaml_header tt tt tt tt).
Proof.
  assert (Sliced : exists v, getitem (image [3; 4; 4]%nat) [Idx 0] = Ok v
                             /\ shape v = [4; 4]%nat)
    by (eexists; split; vm_compute; reflexivity).
  destruct Sliced as (v & Hv & Hshape). exists v.
  split; [exact Hv|]. split; [exact Hshape|].
  apply (proj2 (getitem_builds_from_sliced_data
                  (sliceable (Some small_cube)) [Idx 0]
                  (keywords v yaml_header tt tt tt tt))).
  exists small_cube, (image [3; 4; 4]%nat), v, tt, tt, tt, tt.
  repeat (split; [reflexivity || exact Hv|]). reflexivity.
Defined.

Lemma sequence_slices_every_member_witness :
  (exists k1 k2,
     CRISPSequenceSlicingMixin._slice
       (sequence [sliceable (Some small_cube); sliceable (Some small_cube)]) [Idx 0]
     = Ok [k1; k2]
     /\ CRISPSlicingMixin._slice (sliceable (Some small_cube)) [Idx 0] = Ok k1)
  /\ CRISPSequenceSlicingMixin.__getitem__
       (sequence [sliceable (Some small_cube); sliceable None]) [Idx 0]
     = Raise AttributeError.
Proof.
  assert (One : exists k, CRISPSlicingMixin._slice (sliceable (Some small_cube)) [Idx 0]
                          = Ok k)
    by (eexists; vm_compute; reflexivity).
  destruct One as [k Hk].
  split.
  - exists k, k. split; [|exact Hk].
    apply (proj1 (sequence_slices_every_member
                    (sequence [sliceable (Some small_cube); sliceable (Some small_cube)])
                    [Idx 0])).
    eexists. split; [reflexivity|]. repeat constructor; exact Hk.
  - apply (proj2 (sequence_slices_every_member
                    (sequence [sliceable (Some small_cube); sliceable None]) [Idx 0])
             [sliceable (Some small_cube); sliceable None] 1%nat (sliceable None));
      [reflexivity | reflexivity | reflexivity |].
    intros j g Hj Hg. destruct j as [|j]; [|lia].
    injection Hg as <-. exists k. exact Hk.
Defined.
